(** * Geekworm X708 UPS HAT sensor: a shallow embedding of
      [custom_components/GeekwormUPS/sensor.py]

    The platform polls a fuel-gauge chip over I2C: two 16-bit registers are
    read, byte-swapped and scaled ([UPS.get_sensor_data]); a handler caches
    the last reading ([UPSHandler.update]); one entity per metric rounds the
    cached value ([UPSSensor.async_update]).

    Python values are modelled by [value] (the program tells [None], floats
    and tuples apart at run time), Python floats by Rocq's binary64 floats,
    exceptions and mutation by a state-and-exception monad in which the state
    reached when an exception is raised is kept.  The I2C bus is a parameter:
    the answer of the k-th bus transaction.

    The source as distributed has a malformed branch in [UPSSensor.icon]
    (lines 154-155: tab indentation, no colon after the comparison), which
    Python refuses.  The embedding follows the well-formed lines and selects
    no icon where control would reach the malformed ones: [icon] raises
    [SyntaxError] there. *)

From Stdlib Require Import ZArith List Bool String Lia.
From Stdlib Require Import Floats.
Import ListNotations.
Open Scope string_scope.
Open Scope Z_scope.
Set Warnings "-register-all".

(** ** Python values and exceptions *)

Inductive value : Type :=
| VNone
| VBool (b : bool)
| VInt (z : Z)
| VFloat (f : float)
| VStr (s : string)
| VTuple (items : list value).

Inductive exn : Type :=
| IOError
| RuntimeError
| StructError
| TypeError
| ValueError
| OverflowError
| SyntaxError.

(** [bool(v)]: the truth value Python's [not] and [if] test. *)
Definition truthy (v : value) : bool :=
  match v with
  | VNone => false
  | VBool b => b
  | VInt z => negb (z =? 0)
  | VFloat f => negb (PrimFloat.eqb f 0%float)
  | VStr s => negb (String.eqb s EmptyString)
  | VTuple items => match items with [] => false | _ :: _ => true end
  end.

Inductive outcome (A : Type) : Type :=
| Ok (a : A)
| Raise (e : exn).
Arguments Ok {A} a.
Arguments Raise {A} e.

(** ** Floats *)

Module PyFloat.

(** [float(z)] for a Python int: the binary64 nearest to [z].  Below 2^53
    the conversion is exact and is the machine's. *)
Definition of_int (z : Z) : float :=
  if Z.abs z <? 9007199254740992 then
    match z with
    | Zneg _ => (- of_uint63 (Uint63.of_Z (- z)))%float
    | _ => of_uint63 (Uint63.of_Z z)
    end
  else SF2Prim (binary_normalize prec emax z 0 false).

(** [a / b] on two ints (true division); the divisor is never zero in this
    program.  For operands below 2^53 the correctly rounded quotient is the
    float division of the converted operands. *)
Definition int_truediv (a b : Z) : float :=
  (of_int a / of_int b)%float.

(** Round half to even of [m * 2^e], for [m >= 0]. *)
Definition round_half_even (m e : Z) : Z :=
  match e with
  | Z0 => m
  | Zpos _ => Z.shiftl m e
  | Zneg _ =>
      let d := Z.shiftl 1 (- e) in
      let q := m / d in
      let r := m mod d in
      match Z.compare (2 * r) d with
      | Lt => q
      | Gt => q + 1
      | Eq => if Z.even q then q else q + 1
      end
  end.

(** [round(x)] on a float: the nearest int, ties to even. *)
Definition round_to_int (x : float) : outcome Z :=
  match Prim2SF x with
  | S754_zero _ => Ok 0
  | S754_infinity _ => Raise OverflowError
  | S754_nan => Raise ValueError
  | S754_finite s m e =>
      let n := round_half_even (Zpos m) e in
      Ok (if s then - n else n)
  end.

(** [round(x, ndigits)] on a float, [ndigits >= 0]: the decimal rounding
    (ties to even on the exact binary value) converted back to the nearest
    float; zeros, infinities and NaN are returned as they are. *)
Definition round_ndigits (x : float) (ndigits : Z) : float :=
  match Prim2SF x with
  | S754_finite s m e =>
      let p := 10 ^ ndigits in
      let n := round_half_even (Zpos m * p) e in
      match n with
      | Zpos n' =>
          SF2Prim (SFdiv prec emax (S754_finite s n' 0)
                                   (binary_normalize prec emax p 0 false))
      | _ => SF2Prim (S754_zero s)
      end
  | _ => x
  end.

(** The exact value of a finite float as a fraction [num / 2^k]. *)
Definition exact (x : float) : option (Z * Z) :=
  match Prim2SF x with
  | S754_zero _ => Some (0, 1)
  | S754_finite s m e =>
      let n := if s then Zneg m else Zpos m in
      match e with
      | Zneg k => Some (n, Zpos (2 ^ k))
      | _ => Some (n * 2 ^ e, 1)
      end
  | _ => None
  end.

End PyFloat.

(** ** [struct.pack] / [struct.unpack] on one unsigned 16-bit field *)

Module struct.

(** [struct.pack('>H', n)]: two bytes, most significant first;
    [struct.error] outside [0, 65535]. *)
Definition pack_be_H (n : Z) : outcome (list Z) :=
  if (0 <=? n) && (n <=? 65535)
  then Ok [Z.shiftr n 8; Z.land n 255]
  else Raise StructError.

(** [struct.unpack('<H', bytes)[0]]: least significant byte first. *)
Definition unpack_le_H (bytes : list Z) : outcome Z :=
  match bytes with
  | [b0; b1] => Ok (Z.lor b0 (Z.shiftl b1 8))
  | _ => Raise StructError
  end.

End struct.

(** [struct.unpack('<H', struct.pack('>H', read))[0]] *)
Definition swap16 (read : Z) : outcome Z :=
  match struct.pack_be_H read with
  | Ok bytes => struct.unpack_le_H bytes
  | Raise e => Raise e
  end.

(** ** A state-and-exception monad

    [M S A]: a computation over a mutable state [S] that returns an [A] or
    raises.  The state reached at the point of the [raise] is part of the
    result: what was assigned before an exception stays assigned. *)

Definition M (S A : Type) : Type := S -> outcome A * S.

Definition ret {S A} (a : A) : M S A := fun s => (Ok a, s).

Definition raise {S A} (e : exn) : M S A := fun s => (Raise e, s).

Definition bind {S A B} (m : M S A) (k : A -> M S B) : M S B :=
  fun s =>
    match m s with
    | (Ok a, s') => k a s'
    | (Raise e, s') => (Raise e, s')
    end.

Notation "x <- m ;; k" := (bind m (fun x => k))
  (at level 61, m at next level, right associativity).
Notation "m ;;; k" := (bind m (fun _ => k))
  (at level 61, right associativity).

Definition gets {S A} (f : S -> A) : M S A := fun s => (Ok (f s), s).

Definition modify {S} (f : S -> S) : M S unit := fun s => (Ok tt, f s).

Definition lift {S A} (o : outcome A) : M S A := fun s => (o, s).

(** Run a computation on a part [T] of the state [S]. *)
Definition zoom {S T A} (proj : S -> T) (upd : T -> S -> S) (m : M T A)
  : M S A :=
  fun s => let (r, t) := m (proj s) in (r, upd t s).

(** [try: m  except <caught>: handler] *)
Definition try_except {S A} (m : M S A) (caught : exn -> bool)
    (handler : M S A) : M S A :=
  fun s =>
    match m s with
    | (Raise e, s') => if caught e then handler s' else (Raise e, s')
    | r => r
    end.

(** ** Module constants *)

Definition DEFAULT_NAME : string := "UPS Sensor".
Definition DEFAULT_I2C_ADDRESS : Z := 0x36.
Definition DEFAULT_I2C_BUS : Z := 1.

Inductive sensor_type : Type := SENSOR_VOLTAGE | SENSOR_CAPACITY.

(** [SENSOR_TYPES[t]]: display label and unit. *)
Definition SENSOR_TYPES (t : sensor_type) : string * string :=
  match t with
  | SENSOR_VOLTAGE => ("Voltage", "V")
  | SENSOR_CAPACITY => ("Capacity", "%")
  end.

Definition DEFAULT_MONITORED : list sensor_type :=
  [SENSOR_VOLTAGE; SENSOR_CAPACITY].

(** The validated configuration ([PLATFORM_SCHEMA] has filled the defaults). *)
Record Config : Type := {
  CONF_NAME : string;
  CONF_I2C_ADDRESS : Z;
  CONF_I2C_BUS : Z;
  CONF_MONITORED_CONDITIONS : list sensor_type
}.

Definition default_config : Config :=
  {| CONF_NAME := DEFAULT_NAME;
     CONF_I2C_ADDRESS := DEFAULT_I2C_ADDRESS;
     CONF_I2C_BUS := DEFAULT_I2C_BUS;
     CONF_MONITORED_CONDITIONS := DEFAULT_MONITORED |}.

(** ** The outside world: bus, clock and logger *)

Inductive event : Type :=
| EvOpenBus (bus : Z)
| EvReadWord (bus addr reg : Z)
| EvSleep (seconds : float)
| EvLogError (msg : string)
| EvAddEntities (names : list string).

(** What the hardware answers.  [bus_present n]: [SMBus(n)] can be opened.
    [word_at k bus addr reg]: the word the k-th bus transaction returns when
    it reads register [reg] of the device at [addr], [None] when the
    transaction fails (device absent, bus error, NACK). *)
Record Hardware : Type := {
  bus_present : Z -> bool;
  word_at : nat -> Z -> Z -> Z -> option Z
}.

(** [ticks]: bus transactions performed so far; [events]: newest first. *)
Record IO : Type := { ticks : nat; events : list event }.

Definition io0 : IO := {| ticks := 0; events := [] |}.

Definition trace (io : IO) : list event := rev (events io).

Definition emit (ev : event) : M IO unit :=
  modify (fun io => {| ticks := ticks io; events := ev :: events io |}).

Definition sleep (seconds : float) : M IO unit := emit (EvSleep seconds).

Definition log_error (msg : string) : M IO unit := emit (EvLogError msg).

Record SMBus : Type := { bus_id : Z }.

(** The world after one more bus transaction. *)
Definition transact (bus addr reg : Z) (io : IO) : IO :=
  {| ticks := S (ticks io);
     events := EvReadWord bus addr reg :: events io |}.

(** ** Data records *)

Module FieldData.
Record t : Type := { status : value; voltage : value; capacity : value }.

(** [FieldData.__init__] *)
Definition init : t :=
  {| status := VNone; voltage := VBool false; capacity := VNone |}.

Definition set_voltage (v : value) (d : t) : t :=
  {| status := status d; voltage := v; capacity := capacity d |}.

Definition set_capacity (v : value) (d : t) : t :=
  {| status := status d; voltage := voltage d; capacity := v |}.
End FieldData.

Module SensorData.
Record t : Type := { voltage : value; capacity : value }.

(** [UPSHandler.SensorData.__init__] *)
Definition init : t := {| voltage := VNone; capacity := VNone |}.

Definition set_voltage (v : value) (d : t) : t :=
  {| voltage := v; capacity := capacity d |}.

Definition set_capacity (v : value) (d : t) : t :=
  {| voltage := voltage d; capacity := v |}.
End SensorData.

(** The [UPS] object ([UPSData] contributes [data]). *)
Record UPS : Type := {
  i2c_addr : Z;
  _i2c : SMBus;
  data : FieldData.t
}.

Record UPSHandler : Type := {
  sensor_data : SensorData.t;
  _sensor : UPS
}.

(** A [UPSSensor] entity.  [UPS_client] is a reference to the handler all
    entities share; the handler itself lives in the state next to the entity. *)
Record UPSSensor : Type := {
  client_name : string;
  _name : string;
  temp_unit : string;
  type : sensor_type;
  _state : value;
  _unit_of_measurement : string
}.

(** ** Builtins used by the entities *)

(** [round(v)] (one argument): an int for numbers, [TypeError] otherwise. *)
Definition py_round (v : value) : outcome value :=
  match v with
  | VFloat f =>
      match PyFloat.round_to_int f with
      | Ok n => Ok (VInt n)
      | Raise e => Raise e
      end
  | VInt z => Ok (VInt z)
  | VBool b => Ok (VInt (if b then 1 else 0))
  | VNone | VStr _ | VTuple _ => Raise TypeError
  end.

(** [round(v, ndigits)] with [ndigits >= 0]. *)
Definition py_round_ndigits (v : value) (ndigits : Z) : outcome value :=
  match v with
  | VFloat f => Ok (VFloat (PyFloat.round_ndigits f ndigits))
  | VInt z => Ok (VInt z)
  | VBool b => Ok (VInt (if b then 1 else 0))
  | VNone | VStr _ | VTuple _ => Raise TypeError
  end.

(** [isinstance(v, int)] ([bool] is a subclass of [int]). *)
Definition isinstance_int (v : value) : bool :=
  match v with VInt _ | VBool _ => true | _ => false end.

Definition isinstance_float (v : value) : bool :=
  match v with VFloat _ => true | _ => false end.

(** [v >= n] for a number [v] and an int literal [n]. *)
Definition py_ge (v : value) (n : Z) : bool :=
  match v with
  | VInt z => n <=? z
  | VBool b => n <=? (if b then 1 else 0)
  | VFloat f => PrimFloat.leb (PyFloat.of_int n) f
  | _ => false
  end.

(** ** The program *)

Section Program.

Variable hw : Hardware.

(** [smbus.SMBus(bus)] *)
Definition SMBus_open (bus : Z) : M IO SMBus :=
  emit (EvOpenBus bus) ;;;
  if bus_present hw bus then ret {| bus_id := bus |} else raise IOError.

(** [bus.read_word_data(addr, reg)]: one bus transaction. *)
Definition read_word_data (bus : SMBus) (addr reg : Z) : M IO Z :=
  fun io =>
    match word_at hw (ticks io) (bus_id bus) addr reg with
    | Some w => (Ok w, transact (bus_id bus) addr reg io)
    | None => (Raise IOError, transact (bus_id bus) addr reg io)
    end.

(** *** class UPS *)

Definition ups_io {A} (m : M IO A) : M (UPS * IO) A :=
  zoom snd (fun io s => (fst s, io)) m.

Definition set_data (f : FieldData.t -> FieldData.t) : M (UPS * IO) unit :=
  modify (fun s =>
    ({| i2c_addr := i2c_addr (fst s); _i2c := _i2c (fst s);
        data := f (data (fst s)) |}, snd s)).

(** [UPS.get_sensor_data] (lines 204-217).  The voltage assignment ends in
    a comma in the source: the value stored is a one-element tuple. *)
Definition get_sensor_data : M (UPS * IO) value :=
  self <- gets fst ;;
  read <- ups_io (read_word_data (_i2c self) (i2c_addr self) 2) ;;
  swapped <- lift (swap16 read) ;;
  set_data (FieldData.set_voltage
    (VTuple [VFloat (PyFloat.of_int swapped * 1.25 / 1000 / 16)%float])) ;;;
  read <- ups_io (read_word_data (_i2c self) (i2c_addr self) 4) ;;
  swapped <- lift (swap16 read) ;;
  set_data (FieldData.set_capacity
    (VFloat (PyFloat.int_truediv swapped 256))) ;;;
  ret (VBool true).

(** [UPS.__init__] (lines 192-202) *)
Definition UPS_init (addr : Z) (i2c_device : option SMBus) : M IO UPS :=
  bus <- match i2c_device with
         | Some b => ret b
         | None => SMBus_open 1
         end ;;
  fun io =>
    let self := {| i2c_addr := addr; _i2c := bus; data := FieldData.init |} in
    match get_sensor_data (self, io) with
    | (Ok _, (self', io')) => (Ok self', io')
    | (Raise e, (_, io')) => (Raise e, io')
    end.

(** *** class UPSHandler *)

Definition on_sensor {A} (m : M (UPS * IO) A) : M (UPSHandler * IO) A :=
  zoom (fun s => (_sensor (fst s), snd s))
       (fun t s => ({| sensor_data := sensor_data (fst s);
                       _sensor := fst t |}, snd t)) m.

Definition set_sensor_data (f : UPSHandler -> SensorData.t -> SensorData.t)
  : M (UPSHandler * IO) unit :=
  modify (fun s =>
    ({| sensor_data := f (fst s) (sensor_data (fst s));
        _sensor := _sensor (fst s) |}, snd s)).

(** [UPSHandler.update] (lines 110-117) *)
Definition update (first_read : bool) : M (UPSHandler * IO) unit :=
  (if first_read
   then on_sensor get_sensor_data ;;; ret tt
   else ret tt) ;;;
  ok <- on_sensor get_sensor_data ;;
  if truthy ok then
    set_sensor_data (fun self =>
      SensorData.set_voltage (FieldData.voltage (data (_sensor self)))) ;;;
    set_sensor_data (fun self =>
      SensorData.set_capacity (FieldData.capacity (data (_sensor self))))
  else ret tt.

(** [UPSHandler.__init__] (lines 103-108) *)
Definition UPSHandler_init (sensor : UPS) : M IO UPSHandler :=
  fun io =>
    let self := {| sensor_data := SensorData.init; _sensor := sensor |} in
    match update true (self, io) with
    | (Ok _, (self', io')) => (Ok self', io')
    | (Raise e, (_, io')) => (Raise e, io')
    end.

(** [_setup_UPS] (lines 68-89) *)
Definition _setup_UPS (config : Config) : M IO (option UPSHandler) :=
  r <- try_except
         (let i2c_address := CONF_I2C_ADDRESS config in
          bus <- SMBus_open (CONF_I2C_BUS config) ;;
          sensor <- UPS_init i2c_address (Some bus) ;;
          ret (Some sensor))
         (fun e => match e with
                   | RuntimeError | IOError => true
                   | _ => false
                   end)
         (log_error "UPS sensor not detected at 0x%02x" ;;; ret None) ;;
  match r with
  | None => ret None
  | Some sensor =>
      sensor_handler <- UPSHandler_init sensor ;;
      sleep 0.5 ;;;
      if negb (truthy (SensorData.voltage (sensor_data sensor_handler)))
      then log_error "UPS sensor failed to Initialize" ;;; ret None
      else ret (Some sensor_handler)
  end.

(** *** class UPSSensor *)

(** [UPSSensor.__init__] (lines 123-131) *)
Definition UPSSensor_init (sensor_type : sensor_type) (temp_unit name : string)
  : UPSSensor :=
  {| client_name := name;
     _name := fst (SENSOR_TYPES sensor_type);
     temp_unit := temp_unit;
     type := sensor_type;
     _state := VNone;
     _unit_of_measurement := snd (SENSOR_TYPES sensor_type) |}.

(** The [name] property: ['{} {}'.format(client_name, _name)]. *)
Definition name (self : UPSSensor) : string :=
  client_name self ++ " " ++ _name self.

(** The [state] property. *)
Definition state (self : UPSSensor) : value := _state self.

(** The [unit_of_measurement] property (lines 161-164). *)
Definition unit_of_measurement (self : UPSSensor) : string :=
  _unit_of_measurement self.

(** The [icon] property (lines 143-159).  After the comparison with 50 the
    source continues with lines 154-155, tab-indented and without the colon
    after [elif self._state >= 20]: Python refuses them ([TabError], a
    [SyntaxError]), so a state that passes neither of the first two
    comparisons selects no icon. *)
Definition icon (self : UPSSensor) : outcome string :=
  match type self with
  | SENSOR_VOLTAGE => Ok "mdi:sine-wave"
  | SENSOR_CAPACITY =>
      if isinstance_int (_state self) || isinstance_float (_state self) then
        if py_ge (_state self) 80 then Ok "mdi:battery-high"
        else if py_ge (_state self) 50 then Ok "mdi:battery-medium"
        else Raise SyntaxError
      else Ok "mdi:battery-unknown"
  end.

Definition on_client {A} (m : M (UPSHandler * IO) A)
  : M (UPSSensor * (UPSHandler * IO)) A :=
  zoom snd (fun t s => (fst s, t)) m.

Definition set_state (v : value) : M (UPSSensor * (UPSHandler * IO)) unit :=
  modify (fun s =>
    ({| client_name := client_name (fst s); _name := _name (fst s);
        temp_unit := temp_unit (fst s); type := type (fst s);
        _state := v;
        _unit_of_measurement := _unit_of_measurement (fst s) |}, snd s)).

(** [UPSSensor.async_update] (lines 166-172); the executor job runs
    [UPS_client.update] and its exception, if any, comes out of the
    [await]. *)
Definition async_update : M (UPSSensor * (UPSHandler * IO)) unit :=
  on_client (update false) ;;;
  self <- gets fst ;;
  client <- gets (fun s => fst (snd s)) ;;
  match type self with
  | SENSOR_VOLTAGE =>
      r <- lift (py_round_ndigits
                   (SensorData.voltage (sensor_data client)) 2) ;;
      set_state r
  | SENSOR_CAPACITY =>
      r <- lift (py_round (SensorData.capacity (sensor_data client))) ;;
      set_state r
  end.

(** [async_setup_platform] (lines 46-65): the handler and the entities
    handed to [async_add_entities], or [None] when nothing is registered. *)
Definition async_setup_platform (config : Config)
  : M IO (option (UPSHandler * list UPSSensor)) :=
  let name' := CONF_NAME config in
  sensor_handler <- _setup_UPS config ;;
  match sensor_handler with
  | None => ret None
  | Some sensor_handler =>
      let dev :=
        map (fun variable =>
               UPSSensor_init variable (snd (SENSOR_TYPES variable)) name')
            (CONF_MONITORED_CONDITIONS config) in
      emit (EvAddEntities (map name dev)) ;;;
      ret (Some (sensor_handler, dev))
  end.

End Program.

(** * Vocabulary of the statements

    Names for what the program stores and does, the hardware of the
    examples, and the predicates the properties are stated with. *)

Set Warnings "-inexact-float".

(** The two bytes of a 16-bit word exchanged. *)
Definition byteswap16 (r : Z) : Z := (r mod 256) * 256 + r / 256.

(** What [get_sensor_data] stores for a byte-swapped voltage word... *)
Definition volts (swapped : Z) : value :=
  VTuple [VFloat (PyFloat.of_int swapped * 1.25 / 1000 / 16)%float].

(** ... and for a byte-swapped capacity word. *)
Definition percent (swapped : Z) : value :=
  VFloat (PyFloat.int_truediv swapped 256).

Definition with_data (f : FieldData.t -> FieldData.t) (u : UPS) : UPS :=
  {| i2c_addr := i2c_addr u; _i2c := _i2c u; data := f (data u) |}.

(** The result of [get_sensor_data] spelled out along its two bus
    transactions. *)
Definition read_result (hw : Hardware) (u : UPS) (io : IO)
  : outcome value * (UPS * IO) :=
  let b := bus_id (_i2c u) in
  let a := i2c_addr u in
  let io1 := transact b a 2 io in
  let io2 := transact b a 4 io1 in
  match word_at hw (ticks io) b a 2 with
  | None => (Raise IOError, (u, io1))
  | Some v =>
      match swap16 v with
      | Raise e => (Raise e, (u, io1))
      | Ok sv =>
          let u1 := with_data (FieldData.set_voltage (volts sv)) u in
          match word_at hw (S (ticks io)) b a 4 with
          | None => (Raise IOError, (u1, io2))
          | Some c =>
              match swap16 c with
              | Raise e => (Raise e, (u1, io2))
              | Ok sc =>
                  (Ok (VBool true),
                   (with_data (FieldData.set_capacity (percent sc)) u1, io2))
              end
          end
      end
  end.

Definition with_sensor (u : UPS) (h : UPSHandler) : UPSHandler :=
  {| sensor_data := sensor_data h; _sensor := u |}.

(** The handler after a poll that copied the reader's data. *)
Definition refreshed (u : UPS) : UPSHandler :=
  {| sensor_data :=
       {| SensorData.voltage := FieldData.voltage (data u);
          SensorData.capacity := FieldData.capacity (data u) |};
     _sensor := u |}.

(** Every bus opens; the two registers hold [v] and [c] at all times. *)
Definition steady_hw (v c : Z) : Hardware :=
  {| bus_present := fun _ => true;
     word_at := fun _ _ _ reg =>
       if reg =? 2 then Some v else if reg =? 4 then Some c else None |}.

(** As [steady_hw], but the transaction number [bad] fails. *)
Definition failing_hw (v c : Z) (bad : nat) : Hardware :=
  {| bus_present := fun _ => true;
     word_at := fun k _ _ reg =>
       if Nat.eqb k bad then None
       else if reg =? 2 then Some v else if reg =? 4 then Some c else None |}.

(** A freshly allocated reader on bus 1 at the default address. *)
Definition fresh_ups : UPS :=
  {| i2c_addr := DEFAULT_I2C_ADDRESS; _i2c := {| bus_id := DEFAULT_I2C_BUS |};
     data := FieldData.init |}.

(** A handler whose cache holds an earlier reading (3.5 V, 42.5 %). *)
Definition warm_handler : UPSHandler :=
  {| sensor_data := {| SensorData.voltage := VTuple [VFloat 3.5];
                       SensorData.capacity := VFloat 42.5 |};
     _sensor := with_data (fun _ =>
                  {| FieldData.status := VNone;
                     FieldData.voltage := VTuple [VFloat 3.5];
                     FieldData.capacity := VFloat 42.5 |}) fresh_ups |}.

(** Checks that the float stored for a swapped capacity word [s] is exactly
    the fraction [s / 256]. *)
Definition capacity_exact (s : Z) : bool :=
  match PyFloat.exact (PyFloat.int_truediv s 256) with
  | Some (n, d) => (0 <? d) && (n * 256 =? s * d)
  | None => false
  end.

Definition bytes256 : list Z := map Z.of_nat (seq 0 256).

(** [check] holds of all 16-bit words, enumerated as high and low byte. *)
Definition all_words (check : Z -> bool) : bool :=
  forallb (fun hi => forallb (fun lo => check (256 * hi + lo)) bytes256)
          bytes256.

(** The claim of an atomic register read: a read that raises has written
    neither field of the reader's data. *)
Definition read_is_atomic (hw : Hardware) (u : UPS) (io : IO) : Prop :=
  match get_sensor_data hw (u, io) with
  | (Ok _, _) => True
  | (Raise _, (u', _)) => data u' = data u
  end.

Definition with_state (v : value) (s : UPSSensor) : UPSSensor :=
  {| client_name := client_name s; _name := _name s;
     temp_unit := temp_unit s; type := type s;
     _state := v;
     _unit_of_measurement := _unit_of_measurement s |}.

(** What the entity rounds after the poll. *)
Definition rounded (s : UPSSensor) (h : UPSHandler) : outcome value :=
  match type s with
  | SENSOR_VOLTAGE =>
      py_round_ndigits (SensorData.voltage (sensor_data h)) 2
  | SENSOR_CAPACITY => py_round (SensorData.capacity (sensor_data h))
  end.

(** A bus transaction of the poll fails: the voltage transaction, or the
    capacity transaction after the voltage transaction answered a word. *)
Definition bus_read_fails (hw : Hardware) (u : UPS) (io : IO) : Prop :=
  let b := bus_id (_i2c u) in
  let a := i2c_addr u in
  word_at hw (ticks io) b a 2 = None
  \/ exists v, word_at hw (ticks io) b a 2 = Some v /\ 0 <= v <= 65535
               /\ word_at hw (S (ticks io)) b a 4 = None.

(** The claim of a silent poll: the poll returns normally. *)
Definition poll_is_silent (hw : Hardware) (h : UPSHandler) (io : IO) : Prop :=
  fst (update hw false (h, io)) = Ok tt.

(** [n] polls in a row, as the scheduler issues them. *)
Fixpoint polls (hw : Hardware) (n : nat) : M (UPSHandler * IO) unit :=
  match n with
  | O => ret tt
  | S n' => update hw false ;;; polls hw n'
  end.

(** The registers of the reader's device answer the same at all times. *)
Definition registers_unchanged (hw : Hardware) (u : UPS) : Prop :=
  forall k k' reg,
    word_at hw k (bus_id (_i2c u)) (i2c_addr u) reg
    = word_at hw k' (bus_id (_i2c u)) (i2c_addr u) reg.

Definition is_read (ev : event) : bool :=
  match ev with EvReadWord _ _ _ => true | _ => false end.

(** Some bus transaction follows a settle delay in the trace. *)
Fixpoint read_follows_sleep (tr : list event) : bool :=
  match tr with
  | [] => false
  | EvSleep _ :: rest => existsb is_read rest
  | _ :: rest => read_follows_sleep rest
  end.

Definition log (msg : string) (io : IO) : IO :=
  {| ticks := ticks io; events := EvLogError msg :: events io |}.

Definition not_detected : string := "UPS sensor not detected at 0x%02x".

Definition failed_to_initialize : string := "UPS sensor failed to Initialize".

(** The k-th transaction answers a 16-bit word. *)
Definition answers (hw : Hardware) (k : nat) (b a reg : Z) : Prop :=
  exists w, word_at hw k b a reg = Some w /\ 0 <= w <= 65535.

(** The six transactions of the three initial reads all answer. *)
Definition initial_reads_answer (hw : Hardware) (config : Config) (io : IO)
  : Prop :=
  let b := CONF_I2C_BUS config in
  let a := CONF_I2C_ADDRESS config in
  let k := ticks io in
  answers hw k b a 2 /\ answers hw (1 + k) b a 4
  /\ answers hw (2 + k) b a 2 /\ answers hw (3 + k) b a 4
  /\ answers hw (4 + k) b a 2 /\ answers hw (5 + k) b a 4.

(** The claimed order of initialization: a bus transaction (the first real
    read) follows the settle delay. *)
Definition settle_precedes_real_read (tr : list event) : Prop :=
  read_follows_sleep tr = true.

Definition is_read_or_log (ev : event) : bool :=
  match ev with
  | EvReadWord _ _ _ | EvLogError _ => true
  | _ => false
  end.

(** The reader's record holds a decoded reading: a one-element tuple of a
    float and a float, no placeholder of [FieldData.__init__]. *)
Definition decoded_data (d : FieldData.t) : Prop :=
  FieldData.status d = VNone
  /\ (exists x, FieldData.voltage d = VTuple [VFloat x])
  /\ (exists y, FieldData.capacity d = VFloat y).

(** The same of the handler's cache. *)
Definition decoded_cache (c : SensorData.t) : Prop :=
  (exists x, SensorData.voltage c = VTuple [VFloat x])
  /\ (exists y, SensorData.capacity c = VFloat y).

(** A read started at transaction [k] fails on the bus. *)
Definition read_fails_at (hw : Hardware) (k : nat) (b a : Z) : Prop :=
  word_at hw k b a 2 = None
  \/ exists v, word_at hw k b a 2 = Some v /\ 0 <= v <= 65535
               /\ word_at hw (S k) b a 4 = None.

(** Checks that the voltage stored for a swapped word [s] is a finite float
    within [2^-53] of [s / 12800], relatively. *)
Definition voltage_accurate (s : Z) : bool :=
  match PyFloat.exact (PyFloat.of_int s * 1.25 / 1000 / 16)%float with
  | Some (n, d) =>
      (0 <? d) && (Z.abs (n * 12800 - s * d) * 2 ^ 53 <=? s * d)
  | None => false
  end.


(** * Properties *)

Open Scope list_scope.

(** ** The byte swap *)

Lemma byteswap16_range r :
  0 <= r <= 65535 -> 0 <= byteswap16 r <= 65535.
Proof.
  intros H. unfold byteswap16.
  assert (0 <= r mod 256 < 256) by (apply Z.mod_pos_bound; lia).
  assert (0 <= r / 256 < 256)
    by (split; [apply Z.div_pos; lia | apply Z.div_lt_upper_bound; lia]).
  lia.
Qed.

Lemma lor_low_high a b :
  0 <= a < 256 -> 0 <= b -> Z.lor a (Z.shiftl b 8) = b * 256 + a.
Proof.
  intros Ha Hb.
  assert (Hdisj : Z.land a (Z.shiftl b 8) = 0).
  { apply Z.bits_inj'. intros n Hn.
    rewrite Z.land_spec, Z.bits_0.
    destruct (Z.ltb_spec n 8) as [Hlt | Hge].
    - rewrite (Z.shiftl_spec_low b 8 n) by lia. apply andb_false_r.
    - assert (Z.testbit a n = false) as ->; [ | reflexivity ].
      destruct (Z.eq_dec a 0) as [-> | Hne]; [ apply Z.bits_0 | ].
      apply Z.bits_above_log2; [ lia | ].
      assert (Z.log2 a < 8) by (apply Z.log2_lt_pow2; lia). lia. }
  rewrite <- Z.lxor_lor by exact Hdisj.
  rewrite <- Z.add_nocarry_lxor by exact Hdisj.
  rewrite Z.shiftl_mul_pow2 by lia.
  change (2 ^ 8) with 256. lia.
Qed.

(** On a 16-bit word, packing big-endian and unpacking little-endian
    exchanges the two bytes. *)
Lemma swap16_ok r :
  0 <= r <= 65535 -> swap16 r = Ok (byteswap16 r).
Proof.
  intros H. unfold swap16, struct.pack_be_H.
  assert ((0 <=? r) && (r <=? 65535) = true) as ->.
  { apply andb_true_iff. split; apply Z.leb_le; lia. }
  cbn [struct.unpack_le_H]. f_equal.
  rewrite Z.shiftr_div_pow2 by lia.
  change 255 with (Z.ones 8). rewrite Z.land_ones by lia.
  change (2 ^ 8) with 256.
  rewrite lor_low_high.
  - unfold byteswap16. reflexivity.
  - split; [apply Z.div_pos; lia | apply Z.div_lt_upper_bound; lia].
  - apply Z.mod_pos_bound. lia.
Qed.

(** Outside the 16-bit range [struct.pack] raises. *)
Lemma swap16_raises r :
  ~ (0 <= r <= 65535) -> swap16 r = Raise StructError.
Proof.
  intros H. unfold swap16, struct.pack_be_H.
  assert ((0 <=? r) && (r <=? 65535) = false) as ->; [ | reflexivity ].
  apply andb_false_iff.
  destruct (Z.leb_spec 0 r); [ right | left; reflexivity ].
  apply Z.leb_gt. lia.
Qed.

Lemma swap16_inv r s :
  swap16 r = Ok s -> 0 <= r <= 65535 /\ s = byteswap16 r.
Proof.
  intros H.
  destruct (Z_le_dec 0 r) as [H0 | H0];
    [ destruct (Z_le_dec r 65535) as [H1 | H1] | ].
  - rewrite swap16_ok in H by lia. inversion H. split; [ lia | reflexivity ].
  - rewrite swap16_raises in H by lia. discriminate.
  - rewrite swap16_raises in H by lia. discriminate.
Qed.

Lemma byteswap16_involutive r :
  0 <= r <= 65535 -> byteswap16 (byteswap16 r) = r.
Proof.
  intros H. unfold byteswap16.
  assert (0 <= r mod 256 < 256) by (apply Z.mod_pos_bound; lia).
  assert (0 <= r / 256 < 256)
    by (split; [apply Z.div_pos; lia | apply Z.div_lt_upper_bound; lia]).
  replace ((r mod 256 * 256 + r / 256) mod 256) with (r / 256).
  2:{ rewrite Z.add_comm, Z.mod_add by lia. symmetry. apply Z.mod_small. lia. }
  replace ((r mod 256 * 256 + r / 256) / 256) with (r mod 256).
  2:{ rewrite Z.add_comm, Z.div_add by lia. rewrite (Z.div_small (r / 256)); lia. }
  pose proof (Z.div_mod r 256). lia.
Qed.

(** The byte swap of the source exchanges the two bytes of every 16-bit
    word, stays within 16 bits, and undoes itself. *)
Theorem byte_swap_exchanges_bytes r :
  0 <= r <= 65535 ->
  swap16 r = Ok (byteswap16 r)
  /\ 0 <= byteswap16 r <= 65535
  /\ swap16 (byteswap16 r) = Ok r.
Proof.
  intros H. split; [ exact (swap16_ok r H) | ].
  split; [ exact (byteswap16_range r H) | ].
  rewrite (swap16_ok _ (byteswap16_range r H)).
  rewrite (byteswap16_involutive r H). reflexivity.
Qed.

Lemma byte_swap_exchanges_bytes_witness :
  swap16 0x1000 = Ok 0x0010 /\ swap16 0x0032 = Ok 12800.
Proof.
  split.
  - exact (proj1 (byte_swap_exchanges_bytes 0x1000 ltac:(lia))).
  - exact (proj1 (byte_swap_exchanges_bytes 0x0032 ltac:(lia))).
Defined.

(** ** One register read, case by case *)

Ltac unfold_monad :=
  cbv beta iota zeta delta
    [bind ret raise gets modify lift zoom try_except emit sleep log_error
     ups_io set_data on_sensor set_sensor_data on_client set_state
     fst snd].

Lemma get_sensor_data_unfold hw u io :
  get_sensor_data hw (u, io) = read_result hw u io.
Proof.
  unfold get_sensor_data, read_result, read_word_data.
  unfold_monad.
  destruct (word_at hw (ticks io) (bus_id (_i2c u)) (i2c_addr u) 2)
    as [v | ]; [ | reflexivity ].
  destruct (swap16 v) as [sv | e]; [ | reflexivity ].
  cbn [ticks transact].
  destruct (word_at hw (S (ticks io)) (bus_id (_i2c u)) (i2c_addr u) 4)
    as [c | ]; [ | reflexivity ].
  destruct (swap16 c) as [sc | e]; reflexivity.
Qed.

(** A read that returns went through both transactions with 16-bit words,
    returned [True] and stored both decoded values. *)
Lemma get_sensor_data_returns hw u io r u' io' :
  get_sensor_data hw (u, io) = (Ok r, (u', io')) ->
  exists v c,
    word_at hw (ticks io) (bus_id (_i2c u)) (i2c_addr u) 2 = Some v /\
    word_at hw (S (ticks io)) (bus_id (_i2c u)) (i2c_addr u) 4 = Some c /\
    0 <= v <= 65535 /\ 0 <= c <= 65535 /\
    r = VBool true /\
    u' = with_data (FieldData.set_capacity (percent (byteswap16 c)))
           (with_data (FieldData.set_voltage (volts (byteswap16 v))) u) /\
    io' = transact (bus_id (_i2c u)) (i2c_addr u) 4
            (transact (bus_id (_i2c u)) (i2c_addr u) 2 io).
Proof.
  rewrite get_sensor_data_unfold. unfold read_result.
  destruct (word_at hw (ticks io) _ _ 2) as [v | ]; [ | discriminate ].
  destruct (swap16 v) as [sv | e] eqn:Ev; [ | discriminate ].
  destruct (word_at hw (S (ticks io)) _ _ 4) as [c | ]; [ | discriminate ].
  destruct (swap16 c) as [sc | e] eqn:Ec; [ | discriminate ].
  intros H. inversion H; subst.
  apply swap16_inv in Ev. apply swap16_inv in Ec.
  destruct Ev as [Hv ->]. destruct Ec as [Hc ->].
  exists v, c. repeat split; try reflexivity; lia.
Qed.

(** Conversely, two readable 16-bit words make the read return. *)
Lemma get_sensor_data_ok hw u io v c :
  word_at hw (ticks io) (bus_id (_i2c u)) (i2c_addr u) 2 = Some v ->
  word_at hw (S (ticks io)) (bus_id (_i2c u)) (i2c_addr u) 4 = Some c ->
  0 <= v <= 65535 -> 0 <= c <= 65535 ->
  get_sensor_data hw (u, io) =
    (Ok (VBool true),
     (with_data (FieldData.set_capacity (percent (byteswap16 c)))
        (with_data (FieldData.set_voltage (volts (byteswap16 v))) u),
      transact (bus_id (_i2c u)) (i2c_addr u) 4
        (transact (bus_id (_i2c u)) (i2c_addr u) 2 io))).
Proof.
  intros Hv Hc Rv Rc.
  rewrite get_sensor_data_unfold. unfold read_result.
  rewrite Hv, Hc, (swap16_ok v Rv), (swap16_ok c Rc). reflexivity.
Qed.

(** Whatever happens, a read leaves the device address and the bus handle as
    they were, and advances the world by at most two transactions. *)
Lemma get_sensor_data_frame hw u io :
  let s' := snd (get_sensor_data hw (u, io)) in
  i2c_addr (fst s') = i2c_addr u /\ _i2c (fst s') = _i2c u /\
  FieldData.status (data (fst s')) = FieldData.status (data u).
Proof.
  rewrite get_sensor_data_unfold. unfold read_result.
  destruct (word_at hw (ticks io) _ _ 2) as [v | ]; [ | cbn; auto ].
  destruct (swap16 v) as [sv | e]; [ | cbn; auto ].
  destruct (word_at hw (S (ticks io)) _ _ 4) as [c | ]; [ | cbn; auto ].
  destruct (swap16 c) as [sc | e]; cbn; auto.
Qed.

(** ** One poll of the handler, case by case *)

Lemma update_false_unfold hw h io :
  update hw false (h, io) =
    match get_sensor_data hw (_sensor h, io) with
    | (Ok ok, (u', io')) =>
        if truthy ok then (Ok tt, (refreshed u', io'))
        else (Ok tt, (with_sensor u' h, io'))
    | (Raise e, (u', io')) => (Raise e, (with_sensor u' h, io'))
    end.
Proof.
  unfold update. unfold_monad.
  destruct (get_sensor_data hw (_sensor h, io)) as [[ok | e] [u' io']];
    [ | reflexivity ].
  destruct (truthy ok); reflexivity.
Qed.

Lemma update_true_unfold hw h io :
  update hw true (h, io) =
    match get_sensor_data hw (_sensor h, io) with
    | (Ok _, (u', io')) => update hw false (with_sensor u' h, io')
    | (Raise e, (u', io')) => (Raise e, (with_sensor u' h, io'))
    end.
Proof.
  unfold update. unfold_monad.
  destruct (get_sensor_data hw (_sensor h, io)) as [[ok | e] [u' io']];
    reflexivity.
Qed.

(** A poll that returns has refreshed the cache from a read that returned. *)
Lemma update_returns hw h io h' io' :
  update hw false (h, io) = (Ok tt, (h', io')) ->
  exists u', get_sensor_data hw (_sensor h, io) = (Ok (VBool true), (u', io'))
             /\ h' = refreshed u'.
Proof.
  rewrite update_false_unfold.
  destruct (get_sensor_data hw (_sensor h, io)) as [[ok | e] [u' io1]] eqn:E;
    [ | discriminate ].
  destruct (get_sensor_data_returns _ _ _ _ _ _ E)
    as (v & c & _ & _ & _ & _ & -> & _ & _).
  cbn [truthy]. intros H. inversion H; subst. exists u'. auto.
Qed.

(** A poll that raises has left the cache as it was. *)
Lemma update_raises hw h io e h' io' :
  update hw false (h, io) = (Raise e, (h', io')) ->
  sensor_data h' = sensor_data h.
Proof.
  rewrite update_false_unfold.
  destruct (get_sensor_data hw (_sensor h, io)) as [[ok | e'] [u' io1]].
  - destruct (truthy ok); discriminate.
  - intros H. inversion H; subst. reflexivity.
Qed.

(** ** Hardware used in the examples *)

(** ** The decoded values *)

Lemma all_words_spec check :
  all_words check = true -> forall s, 0 <= s <= 65535 -> check s = true.
Proof.
  unfold all_words. intros H s Hs.
  assert (Hin : forall b, 0 <= b < 256 -> In b bytes256).
  { intros b Hb. apply in_map_iff. exists (Z.to_nat b).
    split; [ lia | apply in_seq; lia ]. }
  rewrite forallb_forall in H.
  assert (Hhi : 0 <= s / 256 < 256)
    by (split; [apply Z.div_pos; lia | apply Z.div_lt_upper_bound; lia]).
  assert (Hlo : 0 <= s mod 256 < 256) by (apply Z.mod_pos_bound; lia).
  specialize (H (s / 256) (Hin _ Hhi)).
  rewrite forallb_forall in H.
  specialize (H (s mod 256) (Hin _ Hlo)).
  rewrite <- Z.div_mod in H by lia. exact H.
Qed.

Lemma capacity_exact_all : all_words capacity_exact = true.
Proof. vm_compute. reflexivity. Qed.

Lemma capacity_exact_word s :
  0 <= s <= 65535 ->
  exists n d, PyFloat.exact (PyFloat.int_truediv s 256) = Some (n, d)
              /\ 0 < d /\ n * 256 = s * d.
Proof.
  intros H.
  pose proof (all_words_spec _ capacity_exact_all s H) as E.
  unfold capacity_exact in E.
  destruct (PyFloat.exact (PyFloat.int_truediv s 256)) as [[n d] | ];
    [ | discriminate ].
  apply andb_true_iff in E. destruct E as [E1 E2].
  exists n, d. split; [ reflexivity | ]. split; [ lia | lia ].
Qed.

(** C1: a read of a 16-bit word [v] at register offset 2 stores the
    byte-swapped word times 1.25 / 1000 / 16, but wrapped in a one-element
    tuple (the assignment ends in a comma): the voltage field never holds the
    bare float the claim names. *)
Theorem voltage_stored_in_tuple hw u io v :
  word_at hw (ticks io) (bus_id (_i2c u)) (i2c_addr u) 2 = Some v ->
  0 <= v <= 65535 ->
  let u' := fst (snd (get_sensor_data hw (u, io))) in
  FieldData.voltage (data u') =
    VTuple [VFloat (PyFloat.of_int (byteswap16 v) * 1.25 / 1000 / 16)%float]
  /\ forall x, FieldData.voltage (data u') <> VFloat x.
Proof.
  intros Hv Rv. rewrite get_sensor_data_unfold. unfold read_result.
  rewrite Hv, (swap16_ok v Rv).
  destruct (word_at hw (S (ticks io)) _ _ 4) as [c | ];
    [ destruct (swap16 c) | ]; cbn; (split; [ reflexivity | discriminate ]).
Qed.

(** For the raw word 0x1000 the field holds [(0.00125,)], not [0.00125]. *)
Lemma voltage_stored_in_tuple_witness :
  let u' := fst (snd (get_sensor_data (steady_hw 0x1000 0x0032)
                        (fresh_ups, io0))) in
  FieldData.voltage (data u') = VTuple [VFloat 0.00125]
  /\ FieldData.voltage (data u') <> VFloat 0.00125.
Proof.
  destruct (voltage_stored_in_tuple (steady_hw 0x1000 0x0032) fresh_ups io0
              0x1000) as [E N]; [ reflexivity | lia | ].
  split; [ exact E | exact (N _) ].
Defined.

(** C2: a read of a 16-bit word [c] at register offset 4 stores the
    byte-swapped word divided by 256 as a float; the quotient is exact and
    nothing clamps it (a swapped word above 25600 gives more than 100); a
    swapped word of 12800 gives 50.0. *)
Theorem capacity_decoded hw u io v c :
  word_at hw (ticks io) (bus_id (_i2c u)) (i2c_addr u) 2 = Some v ->
  word_at hw (S (ticks io)) (bus_id (_i2c u)) (i2c_addr u) 4 = Some c ->
  0 <= v <= 65535 -> 0 <= c <= 65535 ->
  let u' := fst (snd (get_sensor_data hw (u, io))) in
  exists f n d,
    FieldData.capacity (data u') = VFloat f
    /\ f = PyFloat.int_truediv (byteswap16 c) 256
    /\ PyFloat.exact f = Some (n, d) /\ 0 < d /\ n * 256 = byteswap16 c * d
    /\ (byteswap16 c = 12800 -> f = 50%float).
Proof.
  intros Hv Hc Rv Rc.
  rewrite (get_sensor_data_ok hw u io v c Hv Hc Rv Rc). cbn.
  destruct (capacity_exact_word (byteswap16 c) (byteswap16_range c Rc))
    as (n & d & E & Hd & Hn).
  exists (PyFloat.int_truediv (byteswap16 c) 256), n, d.
  repeat split; try assumption.
  intros ->. reflexivity.
Qed.

(** The raw word 0x0032 swaps to 12800 and decodes to 50.0; the raw word
    0xFFFF decodes to 255.99609375. *)
Lemma capacity_decoded_witness :
  FieldData.capacity
    (data (fst (snd (get_sensor_data (steady_hw 0x1000 0x0032)
                       (fresh_ups, io0))))) = VFloat 50
  /\ FieldData.capacity
       (data (fst (snd (get_sensor_data (steady_hw 0x1000 0xFFFF)
                          (fresh_ups, io0))))) = VFloat 255.99609375.
Proof.
  split.
  - destruct (capacity_decoded (steady_hw 0x1000 0x0032) fresh_ups io0
                0x1000 0x0032) as (f & n & d & E & _ & _ & _ & _ & F);
      [ reflexivity | reflexivity | lia | lia | ].
    rewrite E, F; reflexivity.
  - destruct (capacity_decoded (steady_hw 0x1000 0xFFFF) fresh_ups io0
                0x1000 0xFFFF) as (f & n & d & E & -> & _);
      [ reflexivity | reflexivity | lia | lia | ].
    rewrite E. reflexivity.
Defined.

(** ** Atomicity of a read and of a poll *)

(** C3, refuted for the register read: when the voltage transaction answers
    and the capacity transaction fails, the read raises with the voltage
    field newly written and the capacity field untouched. *)
Lemma read_not_atomic :
  let r := get_sensor_data (failing_hw 0x1000 0x0032 1) (fresh_ups, io0) in
  fst r = Raise IOError
  /\ FieldData.voltage (data (fst (snd r))) = VTuple [VFloat 0.00125]
  /\ FieldData.voltage (data fresh_ups) = VBool false
  /\ FieldData.capacity (data (fst (snd r))) = FieldData.capacity (data fresh_ups)
  /\ ~ read_is_atomic (failing_hw 0x1000 0x0032 1) fresh_ups io0.
Proof.
  repeat split; try reflexivity.
  unfold read_is_atomic. rewrite get_sensor_data_unfold.
  vm_compute. discriminate.
Qed.

(** C3, amended: the cache of the handler is updated atomically.  When both
    bus transactions of a poll answer, the poll returns and the cache holds
    the decoding of the two words just read; when one of them fails, the poll
    raises and both cached fields are as they were; and no poll, first-read
    or not, ends otherwise.  The reader's own record is written field by
    field: when the voltage transaction answers and the capacity transaction
    fails, the read raises with the voltage field newly set to the decoding
    of the word just read and the capacity field as it was. *)
Theorem cache_update_atomic hw h io :
  let u := _sensor h in
  let b := bus_id (_i2c u) in
  let a := i2c_addr u in
  let k := ticks io in
  (forall v c,
     word_at hw k b a 2 = Some v -> word_at hw (S k) b a 4 = Some c ->
     0 <= v <= 65535 -> 0 <= c <= 65535 ->
     exists h' io',
       update hw false (h, io) = (Ok tt, (h', io'))
       /\ sensor_data h' = {| SensorData.voltage := volts (byteswap16 v);
                              SensorData.capacity := percent (byteswap16 c) |})
  /\ (read_fails_at hw k b a ->
      exists h' io',
        update hw false (h, io) = (Raise IOError, (h', io'))
        /\ sensor_data h' = sensor_data h)
  /\ (forall v,
        word_at hw k b a 2 = Some v -> 0 <= v <= 65535 ->
        word_at hw (S k) b a 4 = None ->
        exists u' io',
          get_sensor_data hw (u, io) = (Raise IOError, (u', io'))
          /\ FieldData.voltage (data u') = volts (byteswap16 v)
          /\ FieldData.capacity (data u') = FieldData.capacity (data u))
  /\ (forall first,
        let k' := if first : bool then (2 + k)%nat else k in
        match update hw first (h, io) with
        | (Ok _, (h', _)) =>
            exists v c,
              word_at hw k' b a 2 = Some v /\ word_at hw (S k') b a 4 = Some c
              /\ sensor_data h'
                 = {| SensorData.voltage := volts (byteswap16 v);
                      SensorData.capacity := percent (byteswap16 c) |}
        | (Raise _, (h', _)) => sensor_data h' = sensor_data h
        end).
Proof.
  cbv zeta. split; [ | split; [ | split ] ].
  - intros v c Hv Hc Rv Rc.
    rewrite update_false_unfold,
      (get_sensor_data_ok hw (_sensor h) io v c Hv Hc Rv Rc).
    cbn [truthy]. eexists. eexists. split; reflexivity.
  - intros Hfail.
    assert (E : exists u' io',
               get_sensor_data hw (_sensor h, io)
               = (Raise IOError, (u', io'))).
    { rewrite get_sensor_data_unfold. unfold read_result.
      destruct Hfail as [H2 | (v & H2 & Rv & H4)].
      - rewrite H2. eauto.
      - rewrite H2, (swap16_ok v Rv), H4. eauto. }
    destruct E as (u' & io' & E).
    exists (with_sensor u' h), io'.
    rewrite update_false_unfold, E. split; reflexivity.
  - intros v Hv Rv Hc.
    rewrite get_sensor_data_unfold. unfold read_result.
    rewrite Hv, (swap16_ok v Rv), Hc.
    eexists. eexists. split; [ reflexivity | ]. split; reflexivity.
  - assert (Hfalse : forall h0 io0,
      match update hw false (h0, io0) with
      | (Ok _, (h', _)) =>
          exists v c,
            word_at hw (ticks io0) (bus_id (_i2c (_sensor h0)))
              (i2c_addr (_sensor h0)) 2 = Some v
            /\ word_at hw (S (ticks io0)) (bus_id (_i2c (_sensor h0)))
                 (i2c_addr (_sensor h0)) 4 = Some c
            /\ sensor_data h'
               = {| SensorData.voltage := volts (byteswap16 v);
                    SensorData.capacity := percent (byteswap16 c) |}
      | (Raise _, (h', _)) => sensor_data h' = sensor_data h0
      end).
    { intros h0 io1. rewrite update_false_unfold.
      destruct (get_sensor_data hw (_sensor h0, io1))
        as [[ok | e] [u' io']] eqn:E; [ | reflexivity ].
      destruct (get_sensor_data_returns _ _ _ _ _ _ E)
        as (v & c & Hv & Hc & _ & _ & -> & -> & _).
      cbn [truthy]. exists v, c.
      split; [ exact Hv | ]. split; [ exact Hc | reflexivity ]. }
    intros [ | ]; [ | apply Hfalse ].
    rewrite update_true_unfold.
    destruct (get_sensor_data hw (_sensor h, io))
      as [[ok | e] [u' io']] eqn:E; [ | reflexivity ].
    destruct (get_sensor_data_returns _ _ _ _ _ _ E)
      as (v0 & c0 & _ & _ & _ & _ & _ & Eu & Eio).
    pose proof (Hfalse (with_sensor u' h) io') as F.
    destruct (update hw false (with_sensor u' h, io'))
      as [[ok' | e'] [h' io'']]; [ | exact F ].
    destruct F as (v & c & Hv & Hc & D).
    cbn [with_sensor _sensor] in Hv, Hc.
    rewrite Eu in Hv, Hc. cbn [with_data _i2c i2c_addr] in Hv, Hc.
    rewrite Eio in Hv, Hc. cbn [transact ticks] in Hv, Hc.
    exists v, c. split; [ exact Hv | ]. split; [ exact Hc | exact D ].
Qed.

(** On a bus whose second transaction fails, the poll of the warm handler
    raises and the cache keeps the earlier reading, while the reader has the
    new voltage beside the earlier capacity; on a steady bus the poll
    replaces both cached fields. *)
Lemma cache_update_atomic_witness :
  (exists h' io',
     update (failing_hw 0x1000 0x0032 1) false (warm_handler, io0)
     = (Raise IOError, (h', io'))
     /\ sensor_data h' = sensor_data warm_handler)
  /\ (exists u' io',
        get_sensor_data (failing_hw 0x1000 0x0032 1)
          (_sensor warm_handler, io0) = (Raise IOError, (u', io'))
        /\ FieldData.voltage (data u') = VTuple [VFloat 0.00125]
        /\ FieldData.capacity (data u') = VFloat 42.5)
  /\ (exists h' io',
        update (steady_hw 0x1000 0x0032) false (warm_handler, io0)
        = (Ok tt, (h', io'))
        /\ sensor_data h' = {| SensorData.voltage := VTuple [VFloat 0.00125];
                               SensorData.capacity := VFloat 50 |}).
Proof.
  pose proof (cache_update_atomic (failing_hw 0x1000 0x0032 1)
                warm_handler io0) as (_ & F & R & _).
  pose proof (cache_update_atomic (steady_hw 0x1000 0x0032)
                warm_handler io0) as (S & _).
  split; [ | split ].
  - apply F. right. exists 0x1000.
    split; [ reflexivity | ]. split; [ lia | reflexivity ].
  - exact (R 0x1000 eq_refl ltac:(lia) eq_refl).
  - exact (S 0x1000 0x0032 eq_refl eq_refl ltac:(lia) ltac:(lia)).
Defined.

(** ** What a read returns *)

(** C10: a read that runs to completion returns [True], after both bus
    transactions answered; otherwise it raises.  A failed bus transaction is
    signalled by [IOError], never by a falsy return value. *)
Theorem get_sensor_data_true_or_raise hw u io r s' :
  get_sensor_data hw (u, io) = (r, s') ->
  let b := bus_id (_i2c u) in
  let a := i2c_addr u in
  (r = Ok (VBool true)
   /\ exists v c, word_at hw (ticks io) b a 2 = Some v
                  /\ word_at hw (S (ticks io)) b a 4 = Some c)
  \/
  ((exists e, r = Raise e)
   /\ (word_at hw (ticks io) b a 2 = None -> r = Raise IOError)
   /\ (forall v, word_at hw (ticks io) b a 2 = Some v -> 0 <= v <= 65535 ->
         word_at hw (S (ticks io)) b a 4 = None -> r = Raise IOError)).
Proof.
  rewrite get_sensor_data_unfold. unfold read_result. cbv zeta.
  destruct (word_at hw (ticks io) _ _ 2) as [v | ].
  - destruct (swap16 v) as [sv | e] eqn:Ev.
    + destruct (word_at hw (S (ticks io)) _ _ 4) as [c | ].
      * destruct (swap16 c) as [sc | e] eqn:Ec; intros H; inversion H; subst.
        -- left. split; [ reflexivity | eauto ].
        -- right. split; [ eauto | ]. split; [ discriminate | ].
           intros; discriminate.
      * intros H; inversion H; subst. right. split; [ eauto | ].
        split; [ discriminate | reflexivity ].
    + intros H; inversion H; subst. right. split; [ eauto | ].
      split; [ discriminate | ].
      intros v' Hv' Rv'. inversion Hv'; subst.
      rewrite swap16_ok in Ev by lia. discriminate.
  - intros H; inversion H; subst. right. split; [ eauto | ].
    split; [ reflexivity | intros; discriminate ].
Qed.

(** On a steady bus the read returns [True]; when the first or the second
    transaction fails it raises [IOError]. *)
Lemma get_sensor_data_true_or_raise_witness :
  fst (get_sensor_data (steady_hw 0x1000 0x0032) (fresh_ups, io0))
    = Ok (VBool true)
  /\ fst (get_sensor_data (failing_hw 0x1000 0x0032 0) (fresh_ups, io0))
       = Raise IOError
  /\ fst (get_sensor_data (failing_hw 0x1000 0x0032 1) (fresh_ups, io0))
       = Raise IOError.
Proof.
  split; [ | split ].
  - destruct (get_sensor_data (steady_hw 0x1000 0x0032) (fresh_ups, io0))
      as [r s'] eqn:E.
    destruct (get_sensor_data_true_or_raise _ _ _ _ _ E)
      as [[-> _] | [[e ->] _]]; [ reflexivity | ].
    vm_compute in E. discriminate E.
  - destruct (get_sensor_data (failing_hw 0x1000 0x0032 0) (fresh_ups, io0))
      as [r s'] eqn:E.
    destruct (get_sensor_data_true_or_raise _ _ _ _ _ E)
      as [[_ (v & c & H & _)] | [_ [H _]]].
    + vm_compute in H. discriminate H.
    + apply H. reflexivity.
  - destruct (get_sensor_data (failing_hw 0x1000 0x0032 1) (fresh_ups, io0))
      as [r s'] eqn:E.
    destruct (get_sensor_data_true_or_raise _ _ _ _ _ E)
      as [[_ (v & c & _ & H)] | [_ [_ H]]].
    + vm_compute in H. discriminate H.
    + apply (H 0x1000); [ reflexivity | lia | reflexivity ].
Defined.

(** ** A poll during which the bus fails *)

Lemma async_update_unfold hw s h io :
  async_update hw (s, (h, io)) =
    match update hw false (h, io) with
    | (Raise e, st) => (Raise e, (s, st))
    | (Ok _, (h', io')) =>
        match rounded s h' with
        | Ok r => (Ok tt, (with_state r s, (h', io')))
        | Raise e => (Raise e, (s, (h', io')))
        end
    end.
Proof.
  unfold async_update, rounded. unfold_monad.
  destruct (update hw false (h, io)) as [[ok | e] [h' io']]; [ | reflexivity ].
  destruct (type s).
  - destruct (py_round_ndigits _ 2); reflexivity.
  - destruct (py_round _); reflexivity.
Qed.

(** C4, refuted: when the first bus transaction of a poll fails, [IOError]
    comes out of [update], and out of the entity's [async_update]. *)
Lemma poll_error_surfaces :
  bus_read_fails (failing_hw 0x1000 0x0032 0) (_sensor warm_handler) io0
  /\ ~ poll_is_silent (failing_hw 0x1000 0x0032 0) warm_handler io0
  /\ fst (async_update (failing_hw 0x1000 0x0032 0)
            (UPSSensor_init SENSOR_CAPACITY "%" DEFAULT_NAME,
             (warm_handler, io0))) = Raise IOError.
Proof.
  split; [ left; reflexivity | ].
  split; [ unfold poll_is_silent; vm_compute; discriminate | ].
  vm_compute. reflexivity.
Qed.

(** C4, amended: a poll during which a bus transaction fails raises
    [IOError]; the cached reading is left as it was, and so is the state the
    entity exposes, since the error leaves [async_update] before the
    rounding. *)
Theorem failed_poll_keeps_cache hw s h io :
  bus_read_fails hw (_sensor h) io ->
  exists h' io',
    update hw false (h, io) = (Raise IOError, (h', io'))
    /\ sensor_data h' = sensor_data h
    /\ async_update hw (s, (h, io)) = (Raise IOError, (s, (h', io'))).
Proof.
  intros Hfail.
  assert (E : exists u' io',
             get_sensor_data hw (_sensor h, io) = (Raise IOError, (u', io'))).
  { rewrite get_sensor_data_unfold. unfold read_result.
    destruct Hfail as [H2 | (v & H2 & Rv & H4)].
    - rewrite H2. eauto.
    - rewrite H2, (swap16_ok v Rv), H4. eauto. }
  destruct E as (u' & io' & E).
  exists (with_sensor u' h), io'.
  assert (U : update hw false (h, io)
              = (Raise IOError, (with_sensor u' h, io'))).
  { rewrite update_false_unfold, E. reflexivity. }
  split; [ exact U | ]. split; [ reflexivity | ].
  rewrite async_update_unfold, U. reflexivity.
Qed.

(** With the first transaction failing, the warm cache and the entity's
    state survive the poll. *)
Lemma failed_poll_keeps_cache_witness :
  let s := with_state (VInt 42) (UPSSensor_init SENSOR_CAPACITY "%" DEFAULT_NAME) in
  let r := async_update (failing_hw 0x1000 0x0032 0) (s, (warm_handler, io0)) in
  fst r = Raise IOError
  /\ state (fst (snd r)) = VInt 42
  /\ sensor_data (fst (snd (snd r))) = sensor_data warm_handler.
Proof.
  cbv zeta.
  destruct (failed_poll_keeps_cache (failing_hw 0x1000 0x0032 0)
              (with_state (VInt 42)
                 (UPSSensor_init SENSOR_CAPACITY "%" DEFAULT_NAME))
              warm_handler io0) as (h' & io' & _ & C & A).
  - left. reflexivity.
  - rewrite A. cbn [fst snd]. repeat split. exact C.
Defined.

(** ** The accessors *)

(** C6, voltage half: the cached voltage is a tuple after every poll that
    returns, so no [async_update] of a voltage entity returns: it raises
    ([TypeError] from [round] when the poll itself returned) and the state
    the entity exposes stays what it was. *)
Theorem voltage_accessor_raises hw s h io :
  type s = SENSOR_VOLTAGE ->
  exists e st,
    async_update hw (s, (h, io)) = (Raise e, (s, st))
    /\ (forall h' io', update hw false (h, io) = (Ok tt, (h', io')) ->
          e = TypeError /\ st = (h', io')).
Proof.
  intros Ht. rewrite async_update_unfold.
  destruct (update hw false (h, io)) as [[[] | e] [h' io']] eqn:U.
  - destruct (update_returns _ _ _ _ _ U) as (u' & G & ->).
    destruct (get_sensor_data_returns _ _ _ _ _ _ G)
      as (v & c & _ & _ & _ & _ & _ & -> & _).
    unfold rounded. rewrite Ht. cbn.
    exists TypeError, (refreshed
      (with_data (FieldData.set_capacity (percent (byteswap16 c)))
         (with_data (FieldData.set_voltage (volts (byteswap16 v)))
            (_sensor h))), io').
    split; [ reflexivity | ].
    intros h2 io2 H. inversion H; subst. split; reflexivity.
  - exists e, (h', io'). split; [ reflexivity | ]. intros; discriminate.
Qed.

(** After a poll that read the raw voltage word 0x1000 the voltage entity
    raises [TypeError] and still exposes [None]. *)
Lemma voltage_accessor_raises_witness :
  let s := UPSSensor_init SENSOR_VOLTAGE "V" DEFAULT_NAME in
  let r := async_update (steady_hw 0x1000 0x0032) (s, (warm_handler, io0)) in
  fst r = Raise TypeError
  /\ state (fst (snd r)) = VNone
  /\ SensorData.voltage (sensor_data (fst (snd (snd r))))
       = VTuple [VFloat 0.00125].
Proof.
  cbv zeta.
  destruct (voltage_accessor_raises (steady_hw 0x1000 0x0032)
              (UPSSensor_init SENSOR_VOLTAGE "V" DEFAULT_NAME)
              warm_handler io0 eq_refl) as (e & st & A & B).
  rewrite A. cbn [fst snd].
  destruct (B _ _ eq_refl) as [-> ->].
  repeat split.
Defined.

(** Rounding half to even stays within one half of the rounded number. *)
Lemma round_half_even_near m k :
  0 <= m ->
  let d := Zpos (2 ^ k) in
  Z.abs (2 * (d * PyFloat.round_half_even m (Zneg k) - m)) <= d.
Proof.
  intros Hm d. unfold PyFloat.round_half_even.
  change (- Zneg k) with (Zpos k).
  rewrite Z.shiftl_1_l.
  replace (2 ^ Zpos k) with d by (unfold d; rewrite Pos2Z.inj_pow; reflexivity).
  assert (Hd : 0 < d) by (unfold d; lia).
  pose proof (Z.div_mod m d ltac:(lia)) as E.
  pose proof (Z.mod_pos_bound m d Hd) as B.
  set (q := m / d) in *. set (r := m mod d) in *.
  set (dq := d * q) in *.
  destruct (Z.compare_spec (2 * r) d) as [H | H | H].
  - destruct (Z.even q).
    + fold dq. lia.
    + replace (d * (q + 1)) with (dq + d) by (unfold dq; ring). lia.
  - fold dq. lia.
  - replace (d * (q + 1)) with (dq + d) by (unfold dq; ring). lia.
Qed.

(** [round] of a float whose exact value is [s / 256], [s >= 0], is an int
    within one half of it. *)
Lemma round_to_int_near f n d s :
  PyFloat.exact f = Some (n, d) -> 0 < d -> n * 256 = s * d -> 0 <= s ->
  exists k, PyFloat.round_to_int f = Ok k /\ Z.abs (256 * k - s) <= 128.
Proof.
  unfold PyFloat.exact, PyFloat.round_to_int.
  destruct (Prim2SF f) as [sg | sg | | sg m e]; try discriminate.
  - intros H Hd E Hs. inversion H; subst. exists 0. split; [ reflexivity | lia ].
  - intros H Hd E Hs.
    assert (Hn : 0 <= n) by nia.
    assert (Hpow : forall p, 0 < 2 ^ Zpos p)
      by (intros p; apply Z.pow_pos_nonneg; lia).
    assert (Hfst : forall a b : Z * Z, Some a = Some b ->
                     fst a = fst b /\ snd a = snd b)
      by (intros a b Hab; inversion Hab; split; reflexivity).
    destruct sg.
    + exfalso.
      destruct e as [ | p | p]; apply Hfst in H; cbn [fst snd] in H;
        destruct H as [<- <-].
      * change (2 ^ 0) with 1 in Hn. lia.
      * specialize (Hpow p). nia.
      * lia.
    + destruct e as [ | p | p]; apply Hfst in H; cbn [fst snd] in H;
        destruct H as [<- <-].
      * exists (Zpos m). split; [ reflexivity | ].
        change (2 ^ 0) with 1 in E. lia.
      * exists (Zpos m * 2 ^ Zpos p). split.
        -- cbn [PyFloat.round_half_even]. rewrite Z.shiftl_mul_pow2 by lia.
           reflexivity.
        -- lia.
      * exists (PyFloat.round_half_even (Zpos m) (Zneg p)).
        split; [ reflexivity | ].
        pose proof (round_half_even_near (Zpos m) p ltac:(lia)) as R.
        cbv zeta in R.
        set (k := PyFloat.round_half_even (Zpos m) (Zneg p)) in *.
        set (d := Zpos (2 ^ p)) in *.
        assert (H : Z.abs (2 * (256 * (d * k) - s * d)) <= 256 * d) by lia.
        replace (2 * (256 * (d * k) - s * d)) with (d * (2 * (256 * k - s)))
          in H by ring.
        rewrite Z.abs_mul, (Z.abs_eq d) in H by lia.
        nia.
Qed.

(** After a poll that returns, the capacity entity exposes an int, the
    nearest to the decoded capacity. *)
Lemma capacity_accessor_rounds hw s h io h' io' :
  type s = SENSOR_CAPACITY ->
  update hw false (h, io) = (Ok tt, (h', io')) ->
  exists c n,
    word_at hw (S (ticks io)) (bus_id (_i2c (_sensor h)))
      (i2c_addr (_sensor h)) 4 = Some c
    /\ async_update hw (s, (h, io)) = (Ok tt, (with_state (VInt n) s, (h', io')))
    /\ Z.abs (256 * n - byteswap16 c) <= 128.
Proof.
  intros Ht U. rewrite async_update_unfold, U.
  destruct (update_returns _ _ _ _ _ U) as (u' & G & ->).
  destruct (get_sensor_data_returns _ _ _ _ _ _ G)
    as (v & c & _ & Hc & _ & Rc & _ & -> & _).
  pose proof (byteswap16_range c Rc) as Rs.
  destruct (capacity_exact_word (byteswap16 c) Rs) as (n & d & E & Hd & Hn).
  destruct (round_to_int_near _ n d (byteswap16 c) E Hd Hn (proj1 Rs))
    as (k & Rk & Bk).
  unfold rounded. rewrite Ht.
  cbn [refreshed sensor_data SensorData.capacity with_data data
       FieldData.capacity FieldData.set_capacity percent py_round].
  rewrite Rk.
  exists c, k. split; [ exact Hc | ]. split; [ reflexivity | exact Bk ].
Qed.

Lemma capacity_accessor_rounds_witness :
  let s := UPSSensor_init SENSOR_CAPACITY "%" DEFAULT_NAME in
  state (fst (snd (async_update (steady_hw 0x1000 0x0032)
                     (s, (warm_handler, io0))))) = VInt 50.
Proof.
  cbv zeta.
  destruct (capacity_accessor_rounds (steady_hw 0x1000 0x0032)
              (UPSSensor_init SENSOR_CAPACITY "%" DEFAULT_NAME)
              warm_handler io0 _ _ eq_refl eq_refl) as (c & n & _ & A & _).
  vm_compute in A. inversion A. vm_compute. reflexivity.
Defined.

(** ** Repeated polls *)

(** A poll that returns caches the decoding of the two words it read. *)
Lemma update_decodes hw h io h' io' :
  update hw false (h, io) = (Ok tt, (h', io')) ->
  exists v c,
    word_at hw (ticks io) (bus_id (_i2c (_sensor h)))
      (i2c_addr (_sensor h)) 2 = Some v
    /\ word_at hw (S (ticks io)) (bus_id (_i2c (_sensor h)))
         (i2c_addr (_sensor h)) 4 = Some c
    /\ 0 <= v <= 65535 /\ 0 <= c <= 65535
    /\ h' = refreshed
              (with_data (FieldData.set_capacity (percent (byteswap16 c)))
                 (with_data (FieldData.set_voltage (volts (byteswap16 v)))
                    (_sensor h)))
    /\ io' = transact (bus_id (_i2c (_sensor h))) (i2c_addr (_sensor h)) 4
               (transact (bus_id (_i2c (_sensor h)))
                  (i2c_addr (_sensor h)) 2 io).
Proof.
  intros U.
  destruct (update_returns _ _ _ _ _ U) as (u' & G & ->).
  destruct (get_sensor_data_returns _ _ _ _ _ _ G)
    as (v & c & Hv & Hc & Rv & Rc & _ & -> & ->).
  exists v, c. repeat split; assumption || lia.
Qed.

(** C7: with unchanged registers, every further poll after one that returned
    returns too and leaves the handler, cached reading included, exactly as
    that poll left it; the cached reading is the decoding of the two register
    words and of nothing else. *)
Theorem repeated_polls_identical hw h io h1 io1 n :
  registers_unchanged hw (_sensor h) ->
  update hw false (h, io) = (Ok tt, (h1, io1)) ->
  (exists v c,
     word_at hw 0 (bus_id (_i2c (_sensor h))) (i2c_addr (_sensor h)) 2 = Some v
     /\ word_at hw 0 (bus_id (_i2c (_sensor h))) (i2c_addr (_sensor h)) 4 = Some c
     /\ sensor_data h1 = {| SensorData.voltage := volts (byteswap16 v);
                            SensorData.capacity := percent (byteswap16 c) |})
  /\ exists io', polls hw n (h1, io1) = (Ok tt, (h1, io')).
Proof.
  intros Hsteady U.
  destruct (update_decodes _ _ _ _ _ U)
    as (v & c & Hv & Hc & Rv & Rc & -> & _).
  split.
  - exists v, c. rewrite (Hsteady 0%nat (ticks io)), (Hsteady 0%nat (S (ticks io))).
    repeat split; assumption.
  - clear U. generalize io1. induction n as [ | n IH]; intros io2.
    + exists io2. reflexivity.
    + cbn [polls]. unfold bind at 1.
      rewrite update_false_unfold.
      cbn [_sensor refreshed].
      rewrite (get_sensor_data_ok hw _ io2 v c); cbn [with_data _i2c i2c_addr];
        try assumption.
      * cbn [truthy]. apply IH.
      * rewrite (Hsteady _ (ticks io)). exact Hv.
      * rewrite (Hsteady _ (S (ticks io))). exact Hc.
Qed.

(** On a steady bus, three more polls leave the reading of the first one. *)
Lemma repeated_polls_identical_witness :
  let hw := steady_hw 0x1000 0x0032 in
  let s1 := snd (update hw false (warm_handler, io0)) in
  sensor_data (fst (snd (polls hw 3 s1))) = sensor_data (fst s1)
  /\ sensor_data (fst s1) = {| SensorData.voltage := VTuple [VFloat 0.00125];
                               SensorData.capacity := VFloat 50 |}.
Proof.
  cbv zeta.
  assert (S0 : registers_unchanged (steady_hw 0x1000 0x0032)
                 (_sensor warm_handler)) by (intros k k' reg; reflexivity).
  destruct (update (steady_hw 0x1000 0x0032) false (warm_handler, io0))
    as [r [h1 io1]] eqn:U.
  assert (r = Ok tt) as -> by (vm_compute in U; inversion U; reflexivity).
  destruct (repeated_polls_identical _ _ _ _ _ 3%nat S0 U)
    as [(v & c & Hv & Hc & D) [io' P]].
  cbn [fst snd]. rewrite P. cbn [fst snd]. split; [ reflexivity | ].
  rewrite D. vm_compute in Hv, Hc. inversion Hv; inversion Hc; subst.
  vm_compute. reflexivity.
Defined.

(** ** Comparisons of floats *)



(** ** Set-up *)

Lemma setup_unfold hw config io :
  _setup_UPS hw config io =
    let b := CONF_I2C_BUS config in
    let a := CONF_I2C_ADDRESS config in
    let io1 := {| ticks := ticks io; events := EvOpenBus b :: events io |} in
    if bus_present hw b then
      match get_sensor_data hw
              ({| i2c_addr := a; _i2c := {| bus_id := b |};
                  data := FieldData.init |}, io1) with
      | (Ok _, (u1, io2)) =>
          match update hw true
                  ({| sensor_data := SensorData.init; _sensor := u1 |}, io2)
          with
          | (Ok _, (h, io3)) =>
              let io4 := {| ticks := ticks io3;
                            events := EvSleep 0.5 :: events io3 |} in
              if negb (truthy (SensorData.voltage (sensor_data h)))
              then (Ok None, log failed_to_initialize io4)
              else (Ok (Some h), io4)
          | (Raise e, (_, io3)) => (Raise e, io3)
          end
      | (Raise e, (_, io2)) =>
          match e with
          | RuntimeError | IOError => (Ok None, log not_detected io2)
          | _ => (Raise e, io2)
          end
      end
    else (Ok None, log not_detected io1).
Proof.
  unfold _setup_UPS, UPS_init, UPSHandler_init, SMBus_open.
  unfold_monad. cbv zeta.
  destruct (bus_present hw (CONF_I2C_BUS config)); [ | reflexivity ].
  destruct (get_sensor_data hw _) as [[ok | e] [u1 io2]].
  - destruct (update hw true _) as [[ok' | e] [h io3]]; [ | reflexivity ].
    cbn [ticks events].
    destruct (negb (truthy (SensorData.voltage (sensor_data h))));
      reflexivity.
  - destruct e; reflexivity.
Qed.

Lemma trace_transact b a reg io :
  trace (transact b a reg io) = trace io ++ [EvReadWord b a reg].
Proof. reflexivity. Qed.

Lemma trace_log msg io :
  trace (log msg io) = trace io ++ [EvLogError msg].
Proof. reflexivity. Qed.

Lemma trace_emit t ev evs :
  trace {| ticks := t; events := ev :: evs |}
  = trace {| ticks := t; events := evs |} ++ [ev].
Proof. reflexivity. Qed.

(** A read appends bus transactions to the trace, and nothing else. *)
Lemma get_sensor_data_trace hw u io r u' io' :
  get_sensor_data hw (u, io) = (r, (u', io')) ->
  exists pre, trace io' = trace io ++ pre /\ forallb is_read pre = true.
Proof.
  rewrite get_sensor_data_unfold. unfold read_result. cbv zeta.
  set (b := bus_id (_i2c u)). set (a := i2c_addr u).
  assert (H1 : exists pre, trace (transact b a 2 io) = trace io ++ pre
                           /\ forallb is_read pre = true).
  { exists [EvReadWord b a 2]. split; reflexivity. }
  assert (H2 : exists pre,
             trace (transact b a 4 (transact b a 2 io)) = trace io ++ pre
             /\ forallb is_read pre = true).
  { exists [EvReadWord b a 2; EvReadWord b a 4].
    rewrite !trace_transact, <- app_assoc. split; reflexivity. }
  destruct (word_at hw (ticks io) b a 2) as [v | ].
  - destruct (swap16 v) as [sv | e].
    + destruct (word_at hw (S (ticks io)) b a 4) as [c | ];
        [ destruct (swap16 c) as [sc | e] | ];
        intros H; inversion H; subst; exact H2.
    + intros H; inversion H; subst; exact H1.
  - intros H; inversion H; subst; exact H1.
Qed.

(** The outcomes of [_setup_UPS]: a handler after three answered reads and
    the delay; no handler when the bus or the construction read fails; an
    exception when the throwaway or the first real read fails. *)
Lemma setup_cases hw config io :
  let b := CONF_I2C_BUS config in
  let a := CONF_I2C_ADDRESS config in
  let reads := [EvReadWord b a 2; EvReadWord b a 4] in
  match _setup_UPS hw config io with
  | (Ok (Some h), io') =>
      bus_present hw b = true /\ initial_reads_answer hw config io
      /\ trace io' = trace io ++ EvOpenBus b :: reads ++ reads ++ reads
                       ++ [EvSleep 0.5]
      /\ exists v c,
           word_at hw (4 + ticks io) b a 2 = Some v
           /\ word_at hw (5 + ticks io) b a 4 = Some c
           /\ sensor_data h = {| SensorData.voltage := volts (byteswap16 v);
                                 SensorData.capacity := percent (byteswap16 c) |}
  | (Ok None, io') =>
      exists pre, trace io' = trace io ++ EvOpenBus b :: pre
                                ++ [EvLogError not_detected]
                  /\ forallb is_read pre = true
  | (Raise e, io') =>
      exists pre, trace io' = trace io ++ EvOpenBus b :: pre
                  /\ forallb is_read pre = true
  end.
Proof.
  cbv zeta. rewrite setup_unfold. cbv zeta.
  set (b := CONF_I2C_BUS config). set (a := CONF_I2C_ADDRESS config).
  set (io1 := {| ticks := ticks io; events := EvOpenBus b :: events io |}).
  assert (T1 : trace io1 = trace io ++ [EvOpenBus b]) by reflexivity.
  destruct (bus_present hw b) eqn:Hbus.
  2:{ exists []. split; [ | reflexivity ].
      rewrite trace_log, T1, <- app_assoc. reflexivity. }
  destruct (get_sensor_data hw _) as [[ok | e] [u1 io2]] eqn:G1.
  2:{ destruct (get_sensor_data_trace _ _ _ _ _ _ G1) as (pre & T & R).
      rewrite T1, <- app_assoc in T. cbn [app] in T.
      destruct e; try (exists pre; split; assumption);
        (exists pre; split; [ | assumption ]);
        rewrite trace_log, T, <- app_assoc; reflexivity. }
  destruct (get_sensor_data_returns _ _ _ _ _ _ G1)
    as (v1 & c1 & Hv1 & Hc1 & Rv1 & Rc1 & _ & Eu1 & Eio2).
  cbn [_i2c i2c_addr bus_id ticks] in Hv1, Hc1, Eio2.
  fold b a in Hv1, Hc1, Eio2.
  assert (I1 : i2c_addr u1 = a /\ _i2c u1 = {| bus_id := b |})
    by (rewrite Eu1; split; reflexivity).
  destruct I1 as [Ia1 Ib1].
  rewrite update_true_unfold. cbn [_sensor].
  destruct (get_sensor_data hw (u1, io2)) as [[ok2 | e] [u2 io3]] eqn:G2.
  2:{ destruct (get_sensor_data_trace _ _ _ _ _ _ G2) as (pre & T & R).
      exists ([EvReadWord b a 2; EvReadWord b a 4] ++ pre).
      split; [ | rewrite forallb_app, R; reflexivity ].
      rewrite T, Eio2, !trace_transact, T1, <- !app_assoc. reflexivity. }
  destruct (get_sensor_data_returns _ _ _ _ _ _ G2)
    as (v2 & c2 & Hv2 & Hc2 & Rv2 & Rc2 & _ & Eu2 & Eio3).
  rewrite Ia1, Ib1 in Hv2, Hc2, Eio3. cbn [bus_id] in Hv2, Hc2, Eio3.
  assert (I2 : i2c_addr u2 = a /\ _i2c u2 = {| bus_id := b |})
    by (rewrite Eu2; cbn; split; assumption).
  destruct I2 as [Ia2 Ib2].
  rewrite update_false_unfold. cbn [_sensor with_sensor].
  destruct (get_sensor_data hw (u2, io3)) as [[ok3 | e] [u3 io4]] eqn:G3.
  2:{ destruct (get_sensor_data_trace _ _ _ _ _ _ G3) as (pre & T & R).
      exists ([EvReadWord b a 2; EvReadWord b a 4]
              ++ [EvReadWord b a 2; EvReadWord b a 4] ++ pre).
      split; [ | rewrite !forallb_app, R; reflexivity ].
      rewrite T, Eio3, Eio2, !trace_transact, T1, <- !app_assoc.
      reflexivity. }
  destruct (get_sensor_data_returns _ _ _ _ _ _ G3)
    as (v3 & c3 & Hv3 & Hc3 & Rv3 & Rc3 & -> & Eu3 & Eio4).
  rewrite Ia2, Ib2 in Hv3, Hc3, Eio4. cbn [bus_id] in Hv3, Hc3, Eio4.
  cbn [truthy].
  assert (Tk2 : ticks io2 = (2 + ticks io)%nat) by (rewrite Eio2; reflexivity).
  assert (Tk3 : ticks io3 = (4 + ticks io)%nat)
    by (rewrite Eio3; cbn [transact ticks]; rewrite Tk2; reflexivity).
  rewrite Tk2 in Hv2, Hc2. rewrite Tk3 in Hv3, Hc3.
  rewrite Eu3. cbn [refreshed sensor_data SensorData.voltage with_data data
                    FieldData.voltage FieldData.set_capacity
                    FieldData.set_voltage volts truthy negb].
  split; [ reflexivity | ].
  split.
  { unfold initial_reads_answer, answers. cbv zeta. fold a b.
    repeat split; eauto. }
  split.
  { rewrite trace_emit.
    replace {| ticks := ticks io4; events := events io4 |} with io4
      by (destruct io4; reflexivity).
    rewrite Eio4, Eio3, Eio2, !trace_transact, T1, <- !app_assoc.
    reflexivity. }
  exists v3, c3. split; [ exact Hv3 | ]. split; [ exact Hc3 | reflexivity ].
Qed.

(** All initial transactions answering, set-up returns a handler. *)
Lemma setup_succeeds hw config io :
  bus_present hw (CONF_I2C_BUS config) = true ->
  initial_reads_answer hw config io ->
  exists h io', _setup_UPS hw config io = (Ok (Some h), io').
Proof.
  intros Hbus (A0 & A1 & A2 & A3 & A4 & A5).
  destruct A0 as (v1 & Hv1 & Rv1). destruct A1 as (c1 & Hc1 & Rc1).
  destruct A2 as (v2 & Hv2 & Rv2). destruct A3 as (c2 & Hc2 & Rc2).
  destruct A4 as (v3 & Hv3 & Rv3). destruct A5 as (c3 & Hc3 & Rc3).
  rewrite setup_unfold. cbv zeta. rewrite Hbus.
  rewrite (get_sensor_data_ok hw _ _ v1 c1); try assumption.
  rewrite update_true_unfold. cbn [_sensor with_data _i2c i2c_addr bus_id].
  rewrite (get_sensor_data_ok hw _ _ v2 c2); try assumption.
  rewrite update_false_unfold.
  cbn [_sensor with_sensor with_data _i2c i2c_addr bus_id].
  rewrite (get_sensor_data_ok hw _ _ v3 c3); try assumption.
  cbn [truthy refreshed sensor_data SensorData.voltage with_data data
       FieldData.voltage FieldData.set_capacity FieldData.set_voltage
       volts negb].
  eauto.
Qed.

Lemma async_setup_platform_unfold hw config io :
  async_setup_platform hw config io =
    match _setup_UPS hw config io with
    | (Ok (Some h), io') =>
        let dev :=
          map (fun variable =>
                 UPSSensor_init variable (snd (SENSOR_TYPES variable))
                   (CONF_NAME config))
              (CONF_MONITORED_CONDITIONS config) in
        (Ok (Some (h, dev)),
         {| ticks := ticks io';
            events := EvAddEntities (map name dev) :: events io' |})
    | (Ok None, io') => (Ok None, io')
    | (Raise e, io') => (Raise e, io')
    end.
Proof.
  unfold async_setup_platform. unfold_monad.
  destruct (_setup_UPS hw config io) as [[[h | ] | e] io']; reflexivity.
Qed.

(** C5, refuted: on a steady bus set-up returns a handler after six bus
    transactions followed by the delay; no transaction follows the delay. *)
Lemma setup_sleeps_after_reads :
  let r := _setup_UPS (steady_hw 0x1000 0x0032) default_config io0 in
  (exists h, fst r = Ok (Some h))
  /\ trace (snd r) =
       [EvOpenBus 1;
        EvReadWord 1 0x36 2; EvReadWord 1 0x36 4;
        EvReadWord 1 0x36 2; EvReadWord 1 0x36 4;
        EvReadWord 1 0x36 2; EvReadWord 1 0x36 4;
        EvSleep 0.5]
  /\ ~ settle_precedes_real_read (trace (snd r)).
Proof.
  cbv zeta. split; [ | split ].
  - eexists. vm_compute. reflexivity.
  - vm_compute. reflexivity.
  - unfold settle_precedes_real_read. vm_compute. discriminate.
Qed.

(** C5, amended: initialization performs the construction read, the
    throwaway read and the first real read (registers 2 and 4 each) and only
    then waits 0.5; nothing is read after the delay, so the cached reading
    that is tested after it, and that the returned handler holds, is the
    decoding of the fifth and sixth transactions, made before it; the
    entities are registered next.  It is attempted once: when it yields no
    handler or raises, which it does as soon as the bus does not open or one
    of these transactions fails, there has been no delay and no entity is
    registered. *)
Theorem setup_reads_then_sleeps hw config io :
  let b := CONF_I2C_BUS config in
  let a := CONF_I2C_ADDRESS config in
  let reads := [EvReadWord b a 2; EvReadWord b a 4] in
  match async_setup_platform hw config io with
  | (Ok (Some (h, dev)), io') =>
      bus_present hw b = true /\ initial_reads_answer hw config io
      /\ trace io' = trace io ++ EvOpenBus b :: reads ++ reads ++ reads
                       ++ [EvSleep 0.5; EvAddEntities (map name dev)]
      /\ (exists v c,
            word_at hw (4 + ticks io) b a 2 = Some v
            /\ word_at hw (5 + ticks io) b a 4 = Some c
            /\ sensor_data h
               = {| SensorData.voltage := volts (byteswap16 v);
                    SensorData.capacity := percent (byteswap16 c) |})
      /\ map type dev = CONF_MONITORED_CONDITIONS config
  | (_, io') =>
      exists pre, trace io' = trace io ++ EvOpenBus b :: pre
                  /\ forallb is_read_or_log pre = true
  end.
Proof.
  cbv zeta. rewrite async_setup_platform_unfold.
  pose proof (setup_cases hw config io) as C. cbv zeta in C.
  assert (W : forall pre, forallb is_read pre = true ->
                forallb is_read_or_log pre = true).
  { intros pre. induction pre as [ | ev pre IH]; [ reflexivity | ].
    cbn. destruct ev; cbn; try discriminate. exact IH. }
  destruct (_setup_UPS hw config io) as [[[h | ] | e] io'].
  - destruct C as (Hbus & A & T & K).
    split; [ exact Hbus | ]. split; [ exact A | ]. split; [ | split ].
    + rewrite trace_emit.
      replace {| ticks := ticks io'; events := events io' |} with io'
        by (destruct io'; reflexivity).
      rewrite T, <- !app_assoc. reflexivity.
    + exact K.
    + rewrite map_map. cbn. apply map_id.
  - destruct C as (pre & T & R).
    exists (pre ++ [EvLogError not_detected]). split; [ exact T | ].
    rewrite forallb_app, (W _ R). reflexivity.
  - destruct C as (pre & T & R). exists pre. split; [ exact T | exact (W _ R) ].
Qed.

(** The default platform on a bus whose capacity register changes after
    the throwaway read: the handler caches the later word, read before the
    delay; and on a bus whose fifth transaction (the first real read)
    fails. *)
Lemma setup_reads_then_sleeps_witness :
  let hw := {| bus_present := fun _ => true;
               word_at := fun k _ _ reg =>
                 if reg =? 2 then Some 0x1000
                 else if Nat.ltb k 4 then Some 0x0032 else Some 0x0064 |} in
  (exists h dev io',
     async_setup_platform hw default_config io0 = (Ok (Some (h, dev)), io')
     /\ trace io' =
          [EvOpenBus 1;
           EvReadWord 1 0x36 2; EvReadWord 1 0x36 4;
           EvReadWord 1 0x36 2; EvReadWord 1 0x36 4;
           EvReadWord 1 0x36 2; EvReadWord 1 0x36 4;
           EvSleep 0.5;
           EvAddEntities ["UPS Sensor Voltage"; "UPS Sensor Capacity"]]
     /\ sensor_data h = {| SensorData.voltage := VTuple [VFloat 0.00125];
                           SensorData.capacity := VFloat 100 |})
  /\ async_setup_platform (failing_hw 0x1000 0x0032 4) default_config io0
     = (Raise IOError,
        {| ticks := 5;
           events := rev [EvOpenBus 1;
                          EvReadWord 1 0x36 2; EvReadWord 1 0x36 4;
                          EvReadWord 1 0x36 2; EvReadWord 1 0x36 4;
                          EvReadWord 1 0x36 2] |}).
Proof.
  cbv zeta. split.
  - set (hw := {| bus_present := fun _ => true;
                  word_at := fun k _ _ reg =>
                    if reg =? 2 then Some 0x1000
                    else if Nat.ltb k 4 then Some 0x0032 else Some 0x0064 |}).
    pose proof (setup_reads_then_sleeps hw default_config io0) as T.
    cbv zeta in T.
    destruct (async_setup_platform hw default_config io0)
      as [[[[h dev] | ] | e] io'] eqn:E;
      try (vm_compute in E; discriminate E).
    destruct T as (_ & _ & T & (v & c & Hv & Hc & D) & _).
    exists h, dev, io'. split; [ reflexivity | ]. split.
    + rewrite T. vm_compute in E. inversion E. reflexivity.
    + rewrite D. vm_compute in Hv, Hc. inversion Hv; inversion Hc.
      vm_compute. reflexivity.
  - vm_compute. reflexivity.
Defined.

(** ** The initialization-failure branch *)

(** C9: a read that returns leaves a truthy voltage field, a one-element
    tuple, also when the voltage word is 0; so set-up returns the handler
    whenever the bus opens and the initial transactions answer, and the
    "failed to Initialize" branch of [_setup_UPS] is never taken. *)
Theorem failure_branch_unreachable hw config io u r u' io' :
  (get_sensor_data hw (u, io) = (Ok r, (u', io')) ->
   truthy (FieldData.voltage (data u')) = true
   /\ exists x, FieldData.voltage (data u') = VTuple [VFloat x])
  /\ (bus_present hw (CONF_I2C_BUS config) = true ->
      initial_reads_answer hw config io ->
      exists h io1, _setup_UPS hw config io = (Ok (Some h), io1))
  /\ (In (EvLogError failed_to_initialize)
         (trace (snd (_setup_UPS hw config io))) ->
      In (EvLogError failed_to_initialize) (trace io)).
Proof.
  split; [ | split ].
  - intros G.
    destruct (get_sensor_data_returns _ _ _ _ _ _ G)
      as (v & c & _ & _ & _ & _ & _ & -> & _).
    cbn. split; [ reflexivity | eexists; reflexivity ].
  - apply setup_succeeds.
  - pose proof (setup_cases hw config io) as C. cbv zeta in C.
    assert (N : forall pre, forallb is_read pre = true ->
                  ~ In (EvLogError failed_to_initialize) pre).
    { intros pre R H. rewrite forallb_forall in R.
      specialize (R _ H). discriminate R. }
    destruct (_setup_UPS hw config io) as [[[h | ] | e] io1]; cbn [snd].
    + destruct C as (_ & _ & T & _). rewrite T. intros H.
      apply in_app_or in H. destruct H as [H | H]; [ exact H | ].
      cbn in H.
      repeat (destruct H as [H | H]; [ discriminate H | ]). contradiction.
    + destruct C as (pre & T & R). rewrite T. intros H.
      apply in_app_or in H. destruct H as [H | H]; [ exact H | ].
      destruct H as [H | H]; [ discriminate H | ].
      apply in_app_or in H. destruct H as [H | H].
      * exfalso. exact (N _ R H).
      * destruct H as [H | []]. inversion H.
    + destruct C as (pre & T & R). rewrite T. intros H.
      apply in_app_or in H. destruct H as [H | H]; [ exact H | ].
      destruct H as [H | H]; [ discriminate H | ].
      exfalso. exact (N _ R H).
Qed.

(** With both registers reading 0, the stored voltage [(0.0,)] is truthy
    although [0.0] is not, and set-up returns the handler. *)
Lemma failure_branch_unreachable_witness :
  let r := get_sensor_data (steady_hw 0 0) (fresh_ups, io0) in
  FieldData.voltage (data (fst (snd r))) = VTuple [VFloat 0]
  /\ truthy (FieldData.voltage (data (fst (snd r)))) = true
  /\ truthy (VFloat 0) = false
  /\ exists h io1,
       _setup_UPS (steady_hw 0 0) default_config io0 = (Ok (Some h), io1).
Proof.
  cbv zeta.
  destruct (get_sensor_data (steady_hw 0 0) (fresh_ups, io0))
    as [r [u' io']] eqn:G.
  assert (r = Ok (VBool true)) as ->
    by (vm_compute in G; inversion G; reflexivity).
  destruct (failure_branch_unreachable (steady_hw 0 0) default_config io0
              fresh_ups (VBool true) u' io') as (A & B & _).
  destruct (A G) as (Tr & x & Ex).
  cbn [fst snd].
  split; [ vm_compute in G; inversion G; reflexivity | ].
  split; [ exact Tr | ].
  split; [ reflexivity | ].
  apply B; [ reflexivity | ].
  unfold initial_reads_answer, answers. cbv zeta.
  repeat split; (exists 0; split; [ reflexivity | lia ]).
Defined.

(** * Further properties of the code *)

(** ** The bus discipline of a read *)

(** A read addresses the reader's own device on its own bus, register 2
    first and register 4 next, and nothing else.  It stops after the first
    transaction exactly when that one fails or answers no 16-bit word, and
    then leaves the data record untouched; it never changes the address,
    the bus handle or the status field. *)
Theorem read_bus_discipline hw u io :
  let r := get_sensor_data hw (u, io) in
  let u' := fst (snd r) in
  let io' := snd (snd r) in
  let b := bus_id (_i2c u) in
  let a := i2c_addr u in
  i2c_addr u' = a /\ _i2c u' = _i2c u
  /\ FieldData.status (data u') = FieldData.status (data u)
  /\ ((trace io' = trace io ++ [EvReadWord b a 2]
       /\ ticks io' = S (ticks io)
       /\ data u' = data u
       /\ (fst r = Raise IOError /\ word_at hw (ticks io) b a 2 = None
           \/ fst r = Raise StructError
              /\ exists v, word_at hw (ticks io) b a 2 = Some v
                           /\ ~ 0 <= v <= 65535))
      \/ (trace io' = trace io ++ [EvReadWord b a 2; EvReadWord b a 4]
          /\ ticks io' = S (S (ticks io))
          /\ exists v, word_at hw (ticks io) b a 2 = Some v
                       /\ 0 <= v <= 65535
                       /\ FieldData.voltage (data u') = volts (byteswap16 v))).
Proof.
  cbv zeta. rewrite get_sensor_data_unfold. unfold read_result. cbv zeta.
  set (b := bus_id (_i2c u)). set (a := i2c_addr u).
  assert (T2 : trace (transact b a 4 (transact b a 2 io))
               = trace io ++ [EvReadWord b a 2; EvReadWord b a 4]).
  { rewrite !trace_transact, <- app_assoc. reflexivity. }
  destruct (word_at hw (ticks io) b a 2) as [v | ] eqn:Hv.
  - destruct (Z_le_dec 0 v) as [H0 | H0];
      [ destruct (Z_le_dec v 65535) as [H1 | H1] | ].
    + rewrite (swap16_ok v (conj H0 H1)).
      assert (R : exists v0, Some v = Some v0 /\ 0 <= v0 <= 65535
                  /\ volts (byteswap16 v) = volts (byteswap16 v0))
        by (exists v; repeat split; assumption).
      destruct (word_at hw (S (ticks io)) b a 4) as [c | ];
        [ destruct (swap16 c) as [sc | e] | ];
        cbn [fst snd with_data i2c_addr _i2c data FieldData.status
             FieldData.voltage FieldData.set_voltage FieldData.set_capacity];
        (split; [ reflexivity | ]); (split; [ reflexivity | ]);
        (split; [ reflexivity | ]); right;
        (split; [ exact T2 | ]); (split; [ reflexivity | exact R ]).
    + rewrite swap16_raises by lia. cbn [fst snd].
      repeat (split; [ reflexivity | ]). left.
      repeat (split; [ reflexivity | ]). right. split; [ reflexivity | ].
      exists v. split; [ reflexivity | lia ].
    + rewrite swap16_raises by lia. cbn [fst snd].
      repeat (split; [ reflexivity | ]). left.
      repeat (split; [ reflexivity | ]). right. split; [ reflexivity | ].
      exists v. split; [ reflexivity | lia ].
  - cbn [fst snd]. repeat (split; [ reflexivity | ]). left.
    repeat (split; [ reflexivity | ]). left. split; reflexivity.
Qed.

(** ** Construction of the reader *)

(** [UPS(addr, device)]: without a device the constructor opens bus 1, with
    one it opens nothing.  When it returns, the object has the address and
    the bus asked for and decoded data from exactly one read; when the bus
    does not open or the read raises, the constructor raises and there is no
    object. *)
Theorem ups_constructor hw addr dev io :
  let b := match dev with Some d => bus_id d | None => 1 end in
  let opened := match dev with Some _ => [] | None => [EvOpenBus 1] end in
  match UPS_init hw addr dev io with
  | (Ok u, io') =>
      i2c_addr u = addr /\ bus_id (_i2c u) = b /\ decoded_data (data u)
      /\ trace io' = trace io ++ opened
                       ++ [EvReadWord b addr 2; EvReadWord b addr 4]
      /\ ticks io' = S (S (ticks io))
      /\ (dev = None -> bus_present hw 1 = true)
  | (Raise e, io') =>
      (dev = None /\ bus_present hw 1 = false /\ e = IOError
       /\ trace io' = trace io ++ [EvOpenBus 1] /\ ticks io' = ticks io)
      \/ (exists pre, trace io' = trace io ++ opened ++ pre
                      /\ pre <> [] /\ forallb is_read pre = true)
  end.
Proof.
  cbv zeta. unfold UPS_init, SMBus_open. unfold_monad.
  assert (K : forall d io1,
    match
      (let (o, s') :=
         get_sensor_data hw
           ({| i2c_addr := addr; _i2c := d; data := FieldData.init |}, io1) in
       match o with
       | Ok _ => let (self', io') := s' in (Ok self', io')
       | Raise e => let (_, io') := s' in (Raise e, io')
       end)
    with
    | (Ok u, io') =>
        i2c_addr u = addr /\ bus_id (_i2c u) = bus_id d
        /\ decoded_data (data u)
        /\ trace io' = trace io1
                         ++ [EvReadWord (bus_id d) addr 2;
                             EvReadWord (bus_id d) addr 4]
        /\ ticks io' = S (S (ticks io1))
    | (Raise e, io') =>
        exists pre, trace io' = trace io1 ++ pre
                    /\ pre <> [] /\ forallb is_read pre = true
    end).
  { intros d io1.
    destruct (get_sensor_data hw _) as [[ok | e] [u' io']] eqn:G.
    - destruct (get_sensor_data_returns _ _ _ _ _ _ G)
        as (v & c & _ & _ & _ & _ & _ & -> & ->).
      cbn [i2c_addr _i2c with_data data bus_id].
      split; [ reflexivity | ]. split; [ reflexivity | ].
      split.
      { unfold decoded_data. cbn. split; [ reflexivity | ].
        split; eexists; reflexivity. }
      split; [ | reflexivity ].
      rewrite !trace_transact, <- app_assoc. reflexivity.
    - rewrite get_sensor_data_unfold in G. unfold read_result in G.
      cbv zeta in G. cbn [i2c_addr _i2c] in G.
      destruct (word_at hw (ticks io1) (bus_id d) addr 2) as [v | ].
      + destruct (swap16 v) as [sv | e1].
        * destruct (word_at hw (S (ticks io1)) (bus_id d) addr 4) as [c | ];
            [ destruct (swap16 c) as [sc | e2] | ];
            inversion G; subst;
            (exists [EvReadWord (bus_id d) addr 2;
                     EvReadWord (bus_id d) addr 4];
             split; [ rewrite !trace_transact, <- app_assoc; reflexivity | ];
             split; [ discriminate | reflexivity ]).
        * inversion G; subst.
          exists [EvReadWord (bus_id d) addr 2].
          split; [ reflexivity | ]. split; [ discriminate | reflexivity ].
      + inversion G; subst.
        exists [EvReadWord (bus_id d) addr 2].
        split; [ reflexivity | ]. split; [ discriminate | reflexivity ]. }
  destruct dev as [d | ].
  - specialize (K d io).
    destruct (get_sensor_data hw _) as [[ok | e] [u' io']].
    + destruct K as (A & B & C & D & E).
      repeat (split; [ assumption | ]). discriminate.
    + right. exact K.
  - destruct (bus_present hw 1) eqn:Hbus.
    + specialize (K {| bus_id := 1 |}
                    {| ticks := ticks io; events := EvOpenBus 1 :: events io |}).
      cbn [bus_id] in K.
      destruct (get_sensor_data hw _) as [[ok | e] [u' io']].
      * destruct K as (A & B & C & D & E).
        repeat (split; [ assumption | ]).
        split; [ | split; [ exact E | reflexivity ] ].
        rewrite D, trace_emit, <- !app_assoc.
        destruct io; reflexivity.
      * right. destruct K as (pre & T & N & R). exists pre.
        split; [ | split; assumption ].
        rewrite T, trace_emit, <- !app_assoc. destruct io; reflexivity.
    + left. repeat split.
Qed.

(** On a steady bus the constructor without a device returns a reader on
    bus 1; on a bus that does not open it raises [IOError] before any
    transaction. *)
Lemma ups_constructor_witness :
  (exists u io', UPS_init (steady_hw 0x1000 0x0032) 0x36 None io0 = (Ok u, io')
                 /\ bus_id (_i2c u) = 1
                 /\ trace io' = [EvOpenBus 1; EvReadWord 1 0x36 2;
                                 EvReadWord 1 0x36 4])
  /\ UPS_init {| bus_present := fun _ => false;
                 word_at := fun _ _ _ _ => Some 0 |} 0x36 None io0
     = (Raise IOError, {| ticks := 0; events := [EvOpenBus 1] |}).
Proof.
  split.
  - pose proof (ups_constructor (steady_hw 0x1000 0x0032) 0x36 None io0) as C.
    cbv zeta in C.
    destruct (UPS_init (steady_hw 0x1000 0x0032) 0x36 None io0)
      as [[u | e] io'] eqn:E.
    + destruct C as (_ & B & _ & T & _). exists u, io'.
      split; [ reflexivity | ]. split; [ exact B | exact T ].
    + vm_compute in E. discriminate E.
  - vm_compute. reflexivity.
Defined.

(** ** The decoded reading is kept *)

(** A read keeps a decoded data record decoded, whether it returns or
    raises. *)
Lemma get_sensor_data_keeps_decoded hw u io :
  decoded_data (data u) ->
  decoded_data (data (fst (snd (get_sensor_data hw (u, io))))).
Proof.
  intros (Hs & (x & Hx) & (y & Hy)).
  rewrite get_sensor_data_unfold. unfold read_result. cbv zeta.
  destruct (word_at hw (ticks io) _ _ 2) as [v | ];
    [ | cbn [fst snd]; repeat split; eauto ].
  destruct (swap16 v) as [sv | e]; [ | cbn [fst snd]; repeat split; eauto ].
  destruct (word_at hw (S (ticks io)) _ _ 4) as [c | ];
    [ destruct (swap16 c) as [sc | e] | ];
    unfold decoded_data; cbn;
    (split; [ exact Hs | ]); split;
    first [ eexists; reflexivity | eauto ].
Qed.

(** A read that returns leaves a decoded data record. *)
Lemma get_sensor_data_decodes hw u io r u' io' :
  get_sensor_data hw (u, io) = (Ok r, (u', io')) ->
  FieldData.status (data u) = VNone ->
  decoded_data (data u').
Proof.
  intros G Hs.
  destruct (get_sensor_data_returns _ _ _ _ _ _ G)
    as (v & c & _ & _ & _ & _ & _ & -> & _).
  unfold decoded_data. cbn. split; [ exact Hs | ].
  split; eexists; reflexivity.
Qed.

(** Once the reader's record and the handler's cache hold a decoded reading,
    every poll leaves them so, the first-read poll included, whether it
    returns or raises: no poll brings back [None] or the placeholder
    [False]. *)
Theorem poll_keeps_decoded_reading hw first h io :
  decoded_data (data (_sensor h)) ->
  decoded_cache (sensor_data h) ->
  let h' := fst (snd (update hw first (h, io))) in
  decoded_data (data (_sensor h')) /\ decoded_cache (sensor_data h').
Proof.
  intros Hd Hc.
  assert (F : forall h0 io0,
    decoded_data (data (_sensor h0)) -> decoded_cache (sensor_data h0) ->
    let h' := fst (snd (update hw false (h0, io0))) in
    decoded_data (data (_sensor h')) /\ decoded_cache (sensor_data h')).
  { intros h0 io1 Hd0 Hc0. cbv zeta. rewrite update_false_unfold.
    pose proof (get_sensor_data_keeps_decoded hw (_sensor h0) io1 Hd0) as K.
    destruct (get_sensor_data hw (_sensor h0, io1)) as [[ok | e] [u' io']].
    - cbn [fst snd] in K.
      destruct K as (Ks & (x & Kx) & (y & Ky)).
      destruct (truthy ok); cbn [fst snd with_sensor refreshed _sensor
                                  sensor_data].
      + split; [ repeat split; eauto | ].
        unfold decoded_cache. cbn [SensorData.voltage SensorData.capacity].
        split; eauto.
      + split; [ repeat split; eauto | exact Hc0 ].
    - cbn [fst snd] in *. split; [ exact K | exact Hc0 ]. }
  destruct first; [ | apply F; assumption ].
  cbv zeta. rewrite update_true_unfold.
  pose proof (get_sensor_data_keeps_decoded hw (_sensor h) io Hd) as K.
  destruct (get_sensor_data hw (_sensor h, io)) as [[ok | e] [u' io']];
    cbn [fst snd] in K.
  - apply (F (with_sensor u' h) io'); assumption.
  - cbn [fst snd with_sensor _sensor sensor_data]. split; assumption.
Qed.

(** The warm handler through a poll whose capacity transaction fails: the
    reader has a new voltage, the cache the earlier reading, both decoded. *)
Lemma poll_keeps_decoded_reading_witness :
  let h' := fst (snd (update (failing_hw 0x1000 0x0032 1) false
                        (warm_handler, io0))) in
  decoded_data (data (_sensor h')) /\ decoded_cache (sensor_data h')
  /\ FieldData.voltage (data (_sensor h')) = VTuple [VFloat 0.00125]
  /\ SensorData.voltage (sensor_data h') = VTuple [VFloat 3.5].
Proof.
  cbv zeta.
  destruct (poll_keeps_decoded_reading (failing_hw 0x1000 0x0032 1) false
              warm_handler io0) as [A B].
  - unfold decoded_data. cbn. split; [ reflexivity | ].
    split; eexists; reflexivity.
  - unfold decoded_cache. cbn. split; eexists; reflexivity.
  - split; [ exact A | ]. split; [ exact B | ]. split; reflexivity.
Defined.

(** The handler that set-up returns holds a decoded reading, in the reader
    and in the cache, and the two agree. *)
Theorem setup_yields_decoded_reading hw config io h io' :
  _setup_UPS hw config io = (Ok (Some h), io') ->
  decoded_data (data (_sensor h)) /\ decoded_cache (sensor_data h)
  /\ SensorData.voltage (sensor_data h) = FieldData.voltage (data (_sensor h))
  /\ SensorData.capacity (sensor_data h)
     = FieldData.capacity (data (_sensor h))
  /\ i2c_addr (_sensor h) = CONF_I2C_ADDRESS config
  /\ bus_id (_i2c (_sensor h)) = CONF_I2C_BUS config.
Proof.
  rewrite setup_unfold. cbv zeta.
  destruct (bus_present hw (CONF_I2C_BUS config)); [ | discriminate ].
  destruct (get_sensor_data hw _) as [[ok | e] [u1 io2]] eqn:G1;
    [ | destruct e; discriminate ].
  pose proof (get_sensor_data_decodes _ _ _ _ _ _ G1 eq_refl) as D1.
  pose proof (get_sensor_data_frame hw
    {| i2c_addr := CONF_I2C_ADDRESS config;
       _i2c := {| bus_id := CONF_I2C_BUS config |};
       data := FieldData.init |}
    {| ticks := ticks io;
       events := EvOpenBus (CONF_I2C_BUS config) :: events io |}) as F1.
  cbv zeta in F1. rewrite G1 in F1. cbn [fst snd i2c_addr _i2c] in F1.
  destruct F1 as (A1 & B1 & _).
  rewrite update_true_unfold. cbn [_sensor].
  destruct (get_sensor_data hw (u1, io2)) as [[ok2 | e] [u2 io3]] eqn:G2;
    [ | discriminate ].
  pose proof (get_sensor_data_decodes _ _ _ _ _ _ G2 (proj1 D1)) as D2.
  pose proof (get_sensor_data_frame hw u1 io2) as F2.
  cbv zeta in F2. rewrite G2 in F2. cbn [fst snd] in F2.
  destruct F2 as (A2 & B2 & _).
  rewrite update_false_unfold. cbn [_sensor with_sensor].
  destruct (get_sensor_data hw (u2, io3)) as [[ok3 | e] [u3 io4]] eqn:G3;
    [ | discriminate ].
  pose proof (get_sensor_data_decodes _ _ _ _ _ _ G3 (proj1 D2)) as D3.
  pose proof (get_sensor_data_frame hw u2 io3) as F3.
  cbv zeta in F3. rewrite G3 in F3. cbn [fst snd] in F3.
  destruct F3 as (A3 & B3 & _).
  destruct (get_sensor_data_returns _ _ _ _ _ _ G3)
    as (_ & _ & _ & _ & _ & _ & -> & _ & _).
  cbn [truthy].
  destruct (negb (truthy (SensorData.voltage (sensor_data (refreshed u3)))));
    [ discriminate | ].
  intros H. inversion H; subst. cbn [refreshed _sensor sensor_data
    SensorData.voltage SensorData.capacity].
  split; [ exact D3 | ].
  split.
  { destruct D3 as (_ & X & Y). split; assumption. }
  split; [ reflexivity | ]. split; [ reflexivity | ].
  split; [ congruence | ]. rewrite B3, B2, B1. reflexivity.
Qed.

Lemma setup_yields_decoded_reading_witness :
  exists h io',
    _setup_UPS (steady_hw 0x1000 0x0032) default_config io0
      = (Ok (Some h), io')
    /\ decoded_cache (sensor_data h)
    /\ i2c_addr (_sensor h) = 0x36.
Proof.
  destruct (_setup_UPS (steady_hw 0x1000 0x0032) default_config io0)
    as [[[h | ] | e] io'] eqn:E;
    try (vm_compute in E; discriminate E).
  exists h, io'. split; [ reflexivity | ].
  destruct (setup_yields_decoded_reading _ _ _ _ _ E)
    as (_ & C & _ & _ & A & _).
  split; [ exact C | exact A ].
Defined.

(** ** How set-up fails *)

(** A read whose bus transaction fails raises [IOError] after one or two
    transactions. *)
Lemma get_sensor_data_fails hw u io :
  read_fails_at hw (ticks io) (bus_id (_i2c u)) (i2c_addr u) ->
  exists u' io' pre,
    get_sensor_data hw (u, io) = (Raise IOError, (u', io'))
    /\ trace io' = trace io ++ pre /\ forallb is_read pre = true.
Proof.
  intros Hfail.
  destruct (get_sensor_data hw (u, io)) as [r [u' io']] eqn:G.
  destruct (get_sensor_data_trace _ _ _ _ _ _ G) as (pre & T & R).
  exists u', io', pre. split; [ | split; assumption ].
  rewrite get_sensor_data_unfold in G. unfold read_result in G.
  cbv zeta in G.
  destruct Hfail as [H2 | (v & H2 & Rv & H4)].
  - rewrite H2 in G. inversion G; subst. reflexivity.
  - rewrite H2, (swap16_ok v Rv), H4 in G. inversion G; subst. reflexivity.
Qed.

(** The two ways set-up fails.  A bus that does not open, or a failed
    transaction of the construction read, is caught: the error is logged and
    set-up returns no handler.  A failed transaction of the throwaway read or
    of the first real read is not caught: [IOError] leaves [_setup_UPS], and
    [async_setup_platform] with it, and nothing is logged. *)
Theorem setup_failure_modes hw config io :
  let b := CONF_I2C_BUS config in
  let a := CONF_I2C_ADDRESS config in
  let k := ticks io in
  (bus_present hw b = false ->
   _setup_UPS hw config io
   = (Ok None, {| ticks := k;
                  events := EvLogError not_detected :: EvOpenBus b
                              :: events io |}))
  /\ (bus_present hw b = true -> read_fails_at hw k b a ->
      exists io' pre,
        _setup_UPS hw config io = (Ok None, io')
        /\ trace io' = trace io ++ EvOpenBus b :: pre
                         ++ [EvLogError not_detected]
        /\ forallb is_read pre = true)
  /\ (bus_present hw b = true ->
      answers hw k b a 2 -> answers hw (1 + k) b a 4 ->
      read_fails_at hw (2 + k) b a
      \/ (answers hw (2 + k) b a 2 /\ answers hw (3 + k) b a 4
          /\ read_fails_at hw (4 + k) b a) ->
      exists io' pre,
        _setup_UPS hw config io = (Raise IOError, io')
        /\ async_setup_platform hw config io = (Raise IOError, io')
        /\ trace io' = trace io ++ EvOpenBus b :: pre
        /\ forallb is_read pre = true).
Proof.
  cbv zeta.
  set (b := CONF_I2C_BUS config). set (a := CONF_I2C_ADDRESS config).
  set (io1 := {| ticks := ticks io; events := EvOpenBus b :: events io |}).
  set (u0 := {| i2c_addr := a; _i2c := {| bus_id := b |};
                data := FieldData.init |}).
  assert (T1 : trace io1 = trace io ++ [EvOpenBus b]) by reflexivity.
  split; [ | split ].
  - intros Hbus. rewrite setup_unfold. cbv zeta. fold b. rewrite Hbus.
    reflexivity.
  - intros Hbus Hfail. rewrite setup_unfold. cbv zeta. fold b a io1 u0.
    rewrite Hbus.
    destruct (get_sensor_data_fails hw u0 io1 Hfail)
      as (u' & io' & pre & G & T & R).
    rewrite G. exists (log not_detected io'), pre.
    split; [ reflexivity | ]. split; [ | exact R ].
    rewrite trace_log, T, T1, <- !app_assoc. reflexivity.
  - intros Hbus (v1 & Hv1 & Rv1) (c1 & Hc1 & Rc1) Hfail.
    assert (S0 : exists io' pre,
              _setup_UPS hw config io = (Raise IOError, io')
              /\ trace io' = trace io ++ EvOpenBus b :: pre
              /\ forallb is_read pre = true).
    { rewrite setup_unfold. cbv zeta. fold b a io1 u0. rewrite Hbus.
      rewrite (get_sensor_data_ok hw u0 io1 v1 c1 Hv1 Hc1 Rv1 Rc1).
      cbn [_i2c i2c_addr bus_id u0].
      set (u1 := with_data _ (with_data _ u0)).
      set (io2 := transact b a 4 (transact b a 2 io1)).
      assert (T2 : trace io2 = trace io ++ [EvOpenBus b; EvReadWord b a 2;
                                            EvReadWord b a 4]).
      { unfold io2. rewrite !trace_transact, T1, <- !app_assoc. reflexivity. }
      rewrite update_true_unfold. cbn [_sensor].
      destruct Hfail as [F2 | ((v2 & Hv2 & Rv2) & (c2 & Hc2 & Rc2) & F3)].
      - destruct (get_sensor_data_fails hw u1 io2 F2)
          as (u' & io' & pre & G & T & R).
        rewrite G. exists io', ([EvReadWord b a 2; EvReadWord b a 4] ++ pre).
        split; [ reflexivity | ].
        split; [ | rewrite forallb_app, R; reflexivity ].
        rewrite T, T2, <- !app_assoc. reflexivity.
      - rewrite (get_sensor_data_ok hw u1 io2 v2 c2 Hv2 Hc2 Rv2 Rc2).
        cbn [_i2c i2c_addr bus_id u1 u0 with_data].
        rewrite update_false_unfold.
        cbn [_sensor with_sensor].
        set (u2 := with_data _ (with_data _ u1)).
        set (io3 := transact b a 4 (transact b a 2 io2)).
        destruct (get_sensor_data_fails hw u2 io3 F3)
          as (u' & io' & pre & G & T & R).
        rewrite G.
        exists io', ([EvReadWord b a 2; EvReadWord b a 4]
                     ++ [EvReadWord b a 2; EvReadWord b a 4] ++ pre).
        split; [ reflexivity | ].
        split; [ | rewrite !forallb_app, R; reflexivity ].
        rewrite T. unfold io3. rewrite !trace_transact, T2, <- !app_assoc.
        reflexivity. }
    destruct S0 as (io' & pre & E & T & R).
    exists io', pre. split; [ exact E | ].
    split; [ | split; assumption ].
    rewrite async_setup_platform_unfold, E. reflexivity.
Qed.

(** The fifth transaction (the first real read) failing: [IOError] leaves
    set-up; the second (construction) failing: no handler and a log entry. *)
Lemma setup_failure_modes_witness :
  fst (_setup_UPS (failing_hw 0x1000 0x0032 4) default_config io0)
    = Raise IOError
  /\ _setup_UPS (failing_hw 0x1000 0x0032 1) default_config io0
     = (Ok None,
        {| ticks := 2;
           events := [EvLogError not_detected; EvReadWord 1 0x36 4;
                      EvReadWord 1 0x36 2; EvOpenBus 1] |}).
Proof.
  pose proof (setup_failure_modes (failing_hw 0x1000 0x0032 4)
                default_config io0) as (_ & _ & C).
  split.
  - destruct C as (io' & pre & E & _).
    + reflexivity.
    + exists 0x1000. split; [ reflexivity | lia ].
    + exists 0x0032. split; [ reflexivity | lia ].
    + right. split; [ exists 0x1000; split; [ reflexivity | lia ] | ].
      split; [ exists 0x0032; split; [ reflexivity | lia ] | ].
      left. reflexivity.
    + rewrite E. reflexivity.
  - vm_compute. reflexivity.
Defined.

(** ** The registered entities *)

(** When the platform registers, it registers one entity per monitored
    condition, in the configured order; each is named by the configured name
    and the label of its condition, carries the condition's unit, exposes no
    state yet ([None]) and, before its first update, shows the voltage icon
    or the unknown-battery icon. *)
Theorem registered_entities hw config io h dev io' :
  async_setup_platform hw config io = (Ok (Some (h, dev)), io') ->
  map type dev = CONF_MONITORED_CONDITIONS config
  /\ (exists evs, events io' = EvAddEntities (map name dev) :: evs)
  /\ Forall (fun s =>
       state s = VNone
       /\ name s
          = (CONF_NAME config ++ " " ++ fst (SENSOR_TYPES (type s)))%string
       /\ unit_of_measurement s = snd (SENSOR_TYPES (type s))
       /\ temp_unit s = unit_of_measurement s
       /\ icon s = Ok match type s with
                      | SENSOR_VOLTAGE => "mdi:sine-wave"
                      | SENSOR_CAPACITY => "mdi:battery-unknown"
                      end) dev.
Proof.
  rewrite async_setup_platform_unfold.
  destruct (_setup_UPS hw config io) as [[[h0 | ] | e] io1]; try discriminate.
  cbv zeta. intros H. inversion H; subst; clear H.
  split; [ rewrite map_map; cbn; apply map_id | ].
  split; [ eexists; reflexivity | ].
  apply Forall_forall. intros s Hs.
  apply in_map_iff in Hs. destruct Hs as (t & <- & _).
  destruct t; repeat split.
Qed.

(** The default platform registers "UPS Sensor Voltage" and "UPS Sensor
    Capacity"; with no monitored condition it registers the empty list. *)
Lemma registered_entities_witness :
  (exists h dev io',
     async_setup_platform (steady_hw 0x1000 0x0032) default_config io0
       = (Ok (Some (h, dev)), io')
     /\ map name dev = ["UPS Sensor Voltage"; "UPS Sensor Capacity"]
     /\ map unit_of_measurement dev = ["V"; "%"])
  /\ (exists h io',
        async_setup_platform (steady_hw 0x1000 0x0032)
          {| CONF_NAME := "x"; CONF_I2C_ADDRESS := 0x36; CONF_I2C_BUS := 1;
             CONF_MONITORED_CONDITIONS := [] |} io0
        = (Ok (Some (h, [])), io')
        /\ events io' = EvAddEntities [] :: events
             (snd (_setup_UPS (steady_hw 0x1000 0x0032) default_config io0))).
Proof.
  split.
  - destruct (async_setup_platform (steady_hw 0x1000 0x0032) default_config
                io0) as [[[[h dev] | ] | e] io'] eqn:E;
      try (vm_compute in E; discriminate E).
    exists h, dev, io'. split; [ reflexivity | ].
    destruct (registered_entities _ _ _ _ _ _ E) as (M & _ & F).
    assert (D : exists s1 s2, dev = [s1; s2]).
    { destruct dev as [ | s1 [ | s2 [ | s3 dev]]]; try discriminate M.
      eauto. }
    destruct D as (s1 & s2 & ->).
    inversion M as [[M1 M2]].
    inversion F as [ | ? ? F1 F']; subst. inversion F' as [ | ? ? F2 _]; subst.
    destruct F1 as (_ & N1 & U1 & _). destruct F2 as (_ & N2 & U2 & _).
    cbn [map]. rewrite N1, N2, U1, U2, M1, M2. split; reflexivity.
  - eexists. eexists. split; vm_compute; reflexivity.
Defined.

(** ** The icon, case by case *)



(** ** Accuracy of the voltage *)

Lemma voltage_accurate_all : all_words voltage_accurate = true.
Proof. vm_compute. reflexivity. Qed.

(** The float stored for the voltage is finite, non-negative and within a
    relative [2^-53] of the byte-swapped word times 78.125 microvolts
    ([s / 12800] volts); it never exceeds 5.12 volts. *)
Theorem voltage_accuracy hw u io v :
  word_at hw (ticks io) (bus_id (_i2c u)) (i2c_addr u) 2 = Some v ->
  0 <= v <= 65535 ->
  exists x n d,
    FieldData.voltage (data (fst (snd (get_sensor_data hw (u, io)))))
      = VTuple [VFloat x]
    /\ PyFloat.exact x = Some (n, d) /\ 0 < d
    /\ Z.abs (n * 12800 - byteswap16 v * d) * 2 ^ 53 <= byteswap16 v * d
    /\ 0 <= n /\ n * 25 <= 128 * d.
Proof.
  intros Hv Rv.
  pose proof (byteswap16_range v Rv) as Rs.
  pose proof (all_words_spec _ voltage_accurate_all _ Rs) as A.
  unfold voltage_accurate in A.
  destruct (PyFloat.exact (PyFloat.of_int (byteswap16 v) * 1.25 / 1000 / 16))
    as [[n d] | ] eqn:E; [ | discriminate ].
  apply andb_true_iff in A. destruct A as [Hd Hacc].
  apply Z.ltb_lt in Hd. apply Z.leb_le in Hacc.
  exists (PyFloat.of_int (byteswap16 v) * 1.25 / 1000 / 16)%float, n, d.
  split.
  { rewrite get_sensor_data_unfold. unfold read_result. cbv zeta.
    rewrite Hv, (swap16_ok v Rv).
    destruct (word_at hw (S (ticks io)) _ _ 4) as [c | ];
      [ destruct (swap16 c) | ]; reflexivity. }
  split; [ exact E | ]. split; [ exact Hd | ]. split; [ exact Hacc | ].
  set (s := byteswap16 v) in *.
  change (2 ^ 53) with 9007199254740992 in Hacc.
  assert (Hsd : 0 <= s * d) by nia.
  split.
  - destruct (Z.abs_spec (n * 12800 - s * d)) as [[_ Ha] | [_ Ha]];
      rewrite Ha in Hacc; nia.
  - destruct (Z.abs_spec (n * 12800 - s * d)) as [[_ Ha] | [_ Ha]];
      rewrite Ha in Hacc; nia.
Qed.

(** The raw word 0xFFFF gives the largest voltage, just below 5.12. *)
Lemma voltage_accuracy_witness :
  exists x n d,
    FieldData.voltage
      (data (fst (snd (get_sensor_data (steady_hw 0xFFFF 0x0032)
                         (fresh_ups, io0))))) = VTuple [VFloat x]
    /\ PyFloat.exact x = Some (n, d) /\ 0 <= n /\ n * 25 <= 128 * d.
Proof.
  destruct (voltage_accuracy (steady_hw 0xFFFF 0x0032) fresh_ups io0 0xFFFF
              eq_refl ltac:(lia)) as (x & n & d & V & E & _ & _ & N & B).
  exists x, n, d. repeat split; assumption.
Defined.

(** ** The capacity icon after a poll *)





(** ** Two entities on one handler *)

(** The entities share the handler, and each update polls for itself.  In a
    cycle that updates the voltage entity and then the capacity entity, the
    first update raises [TypeError] but has refreshed the shared cache from
    transactions [k] and [k+1]; the second polls again, so the capacity
    state comes from the word of transaction [k+3], not from the reading the
    first update cached, and the cycle costs four bus transactions. *)
Theorem entities_poll_separately hw sv sc h io v1 c1 v2 c2 :
  let b := bus_id (_i2c (_sensor h)) in
  let a := i2c_addr (_sensor h) in
  let k := ticks io in
  type sv = SENSOR_VOLTAGE -> type sc = SENSOR_CAPACITY ->
  word_at hw k b a 2 = Some v1 -> word_at hw (1 + k) b a 4 = Some c1 ->
  word_at hw (2 + k) b a 2 = Some v2 -> word_at hw (3 + k) b a 4 = Some c2 ->
  0 <= v1 <= 65535 -> 0 <= c1 <= 65535 ->
  0 <= v2 <= 65535 -> 0 <= c2 <= 65535 ->
  exists h1 io1 h2 io2 n,
    async_update hw (sv, (h, io)) = (Raise TypeError, (sv, (h1, io1)))
    /\ sensor_data h1 = {| SensorData.voltage := volts (byteswap16 v1);
                           SensorData.capacity := percent (byteswap16 c1) |}
    /\ async_update hw (sc, (h1, io1))
       = (Ok tt, (with_state (VInt n) sc, (h2, io2)))
    /\ sensor_data h2 = {| SensorData.voltage := volts (byteswap16 v2);
                           SensorData.capacity := percent (byteswap16 c2) |}
    /\ Z.abs (256 * n - byteswap16 c2) <= 128
    /\ ticks io2 = (4 + k)%nat.
Proof.
  cbv zeta. intros Hv Hc Hv1 Hc1 Hv2 Hc2 Rv1 Rc1 Rv2 Rc2.
  set (b := bus_id (_i2c (_sensor h))) in *.
  set (a := i2c_addr (_sensor h)) in *.
  set (u1 := with_data (FieldData.set_capacity (percent (byteswap16 c1)))
               (with_data (FieldData.set_voltage (volts (byteswap16 v1)))
                  (_sensor h))).
  set (io1 := transact b a 4 (transact b a 2 io)).
  set (u2 := with_data (FieldData.set_capacity (percent (byteswap16 c2)))
               (with_data (FieldData.set_voltage (volts (byteswap16 v2))) u1)).
  set (io2 := transact b a 4 (transact b a 2 io1)).
  assert (U1 : update hw false (h, io) = (Ok tt, (refreshed u1, io1))).
  { rewrite update_false_unfold.
    rewrite (get_sensor_data_ok hw (_sensor h) io v1 c1 Hv1 Hc1 Rv1 Rc1).
    reflexivity. }
  assert (U2 : update hw false (refreshed u1, io1)
               = (Ok tt, (refreshed u2, io2))).
  { rewrite update_false_unfold. cbn [refreshed _sensor].
    rewrite (get_sensor_data_ok hw u1 io1 v2 c2); try assumption.
    reflexivity. }
  pose proof (byteswap16_range c2 Rc2) as Rs.
  destruct (capacity_exact_word (byteswap16 c2) Rs) as (n & d & E & Hd & Hn).
  destruct (round_to_int_near _ n d (byteswap16 c2) E Hd Hn (proj1 Rs))
    as (m & Rm & Bm).
  exists (refreshed u1), io1, (refreshed u2), io2, m.
  split.
  { rewrite async_update_unfold, U1. unfold rounded. rewrite Hv.
    reflexivity. }
  split; [ reflexivity | ].
  split.
  { rewrite async_update_unfold, U2. unfold rounded. rewrite Hc.
    cbn [refreshed sensor_data SensorData.capacity with_data data u2
         FieldData.capacity FieldData.set_capacity percent py_round].
    rewrite Rm. reflexivity. }
  split; [ reflexivity | ]. split; [ exact Bm | reflexivity ].
Qed.

(** On a bus whose registers change between the two polls of a cycle, the
    capacity entity shows the later word. *)
Lemma entities_poll_separately_witness :
  let hw := {| bus_present := fun _ => true;
               word_at := fun k _ _ reg =>
                 if reg =? 2 then Some 0x1000
                 else if Nat.ltb k 2 then Some 0x0032 else Some 0x0064 |} in
  let volt := UPSSensor_init SENSOR_VOLTAGE "V" DEFAULT_NAME in
  let cap := UPSSensor_init SENSOR_CAPACITY "%" DEFAULT_NAME in
  let st1 := snd (snd (async_update hw (volt, (warm_handler, io0)))) in
  SensorData.capacity (sensor_data (fst st1)) = VFloat 50
  /\ state (fst (snd (async_update hw (cap, st1)))) = VInt 100.
Proof.
  cbv zeta.
  destruct (entities_poll_separately
    {| bus_present := fun _ => true;
       word_at := fun k _ _ reg =>
         if reg =? 2 then Some 0x1000
         else if Nat.ltb k 2 then Some 0x0032 else Some 0x0064 |}
    (UPSSensor_init SENSOR_VOLTAGE "V" DEFAULT_NAME)
    (UPSSensor_init SENSOR_CAPACITY "%" DEFAULT_NAME)
    warm_handler io0 0x1000 0x0032 0x1000 0x0064
    eq_refl eq_refl eq_refl eq_refl eq_refl eq_refl
    ltac:(lia) ltac:(lia) ltac:(lia) ltac:(lia))
    as (h1 & io1 & h2 & io2 & n & A1 & C1 & A2 & _ & _ & _).
  rewrite A1. cbn [fst snd]. rewrite C1. split; [ reflexivity | ].
  vm_compute in A1. inversion A1; subst h1 io1.
  rewrite A2. vm_compute in A2. inversion A2. reflexivity.
Defined.
